(** * Fitness tracker: the user-data lifecycle and the per-user stores

    A shallow embedding of [fitness_tracker/fitness_tracker.py]: the data
    layer only (registry, per-user stores, archive, backups, snapshot
    export/import, CSV import).  The Streamlit presentation code is left
    out; what it supplies to the data layer (entered text, the clock, the
    random digits) appears here as explicit arguments.

    Conventions of the embedding.
    - Python [str] values are Rocq [string]s, read as sequences of code
      points below 256; [str.lower], [str.split] and [str.strip] are
      defined on that range.
    - The data directory is modelled by its four kinds of entries: the
      registry file [users.json], the per-user directories, the archive
      root [archived_users/] and the backup root [backups/].  Usernames are
      taken to be plain directory names different from those three
      entries ([plain_name] below); the source does not enforce this.
      File names are compared exactly, as on a case-sensitive file system.
    - A function that can raise returns a [res]; the file system state is
      threaded explicitly, and a raised exception keeps the writes made
      before it, as in Python. *)

From Stdlib Require Import Ascii NArith ZArith.
From stdpp Require Import base option list gmap strings sorting pretty.

(** * Part I. The embedding *)

(** ** Python string operations *)

Module PyStr.
Local Open Scope N_scope.

Definition code (c : ascii) : N := N_of_ascii c.

(** [str.isspace] on one character (code points below 256). *)
Definition isspace (c : ascii) : bool :=
  let n := code c in
  ((9 <=? n) && (n <=? 13)) || ((28 <=? n) && (n <=? 32))
  || (n =? 133) || (n =? 160).

Definition isupper (c : ascii) : bool :=
  let n := code c in
  ((65 <=? n) && (n <=? 90))
  || ((192 <=? n) && (n <=? 222) && negb (n =? 215)).

Definition lower_char (c : ascii) : ascii :=
  if isupper c then ascii_of_N (code c + 32) else c.

(** [s.lower()] *)
Fixpoint lower (s : string) : string :=
  match s with
  | EmptyString => EmptyString
  | String c s' => String (lower_char c) (lower s')
  end.

Definition cons_head (c : ascii) (ws : list string) : list string :=
  match ws with
  | [] => [String c EmptyString]
  | w :: ws' => String c w :: ws'
  end.

(** The next character ends the current word. *)
Definition at_break (s : string) : bool :=
  match s with
  | EmptyString => true
  | String c _ => isspace c
  end.

(** [s.split()]: the maximal runs of non-whitespace characters. *)
Fixpoint split (s : string) : list string :=
  match s with
  | EmptyString => []
  | String c s' =>
      if isspace c then split s'
      else if at_break s' then String c EmptyString :: split s'
      else cons_head c (split s')
  end.

(** [sep.join(ws)] *)
Fixpoint join (sep : string) (ws : list string) : string :=
  match ws with
  | [] => EmptyString
  | w :: ws' =>
      match ws' with
      | [] => w
      | _ :: _ => w +:+ sep +:+ join sep ws'
      end
  end.

Fixpoint lstrip (s : string) : string :=
  match s with
  | EmptyString => EmptyString
  | String c s' => if isspace c then lstrip s' else s
  end.

(** [s.strip()] *)
Definition strip (s : string) : string :=
  String.rev (lstrip (String.rev (lstrip s))).

(** [s.startswith(p)] *)
Fixpoint startswith (p s : string) : bool :=
  match p, s with
  | EmptyString, _ => true
  | String a p', String b s' => bool_decide (a = b) && startswith p' s'
  | String _ _, EmptyString => false
  end.

(** Predicates used to describe strings. *)
Fixpoint all_chars (P : ascii → bool) (s : string) : bool :=
  match s with
  | EmptyString => true
  | String c s' => P c && all_chars P s'
  end.

Definition first_char (s : string) : option ascii :=
  match s with
  | EmptyString => None
  | String c _ => Some c
  end.

Fixpoint last_char (s : string) : option ascii :=
  match s with
  | EmptyString => None
  | String c s' =>
      match s' with
      | EmptyString => Some c
      | String _ _ => last_char s'
      end
  end.

Definition is_blank (c : ascii) : bool := bool_decide (c = " "%char).

(** No two neighbouring characters are both the space character. *)
Fixpoint no_double_space (s : string) : bool :=
  match s with
  | EmptyString => true
  | String c s' =>
      negb (is_blank c && from_option is_blank false (first_char s'))
      && no_double_space s'
  end.

(** A word as [split] produces them: non-empty, free of whitespace. *)
Definition is_word (w : string) : bool :=
  negb (bool_decide (w = EmptyString)) && all_chars (λ c, negb (isspace c)) w.

End PyStr.

(** [normalize_exercise_name(name)]: [" ".join(name.lower().split())] *)
Definition normalize_exercise_name (name : string) : string :=
  PyStr.join " " (PyStr.split (PyStr.lower name)).

(** ** Data model *)

(** A Python [float], kept as the value [m * 2^e], or one of the specials. *)
Inductive pyfloat :=
  | Finite (m e : Z)
  | NaN
  | Inf (negative : bool).

(** An entry of the registry, [{"id", "name", "created_at",
    "protection_code"}]; the last key is absent in some records. *)
Record user := User {
  u_id : nat;
  u_name : string;
  u_created_at : string;
  u_protection_code : option string;
}.

(** [{"name", "muscle_group", "created_at"}] *)
Record exercise := Exercise {
  ex_name : string;
  ex_muscle_group : string;
  ex_created_at : string;
}.

(** [{"date", "exercise", "weight", "reps"}] *)
Record workout := Workout {
  w_date : string;
  w_exercise : string;
  w_weight : pyfloat;
  w_reps : Z;
}.

(** What a JSON file of the application holds: one of the three documents
    it writes, [{"users": ..}], [{"exercises": ..}], [{"workouts": ..}],
    or text that [json.load] rejects. *)
Inductive content :=
  | Users (l : list user)
  | Exercises (l : list exercise)
  | Workouts (l : list workout)
  | Corrupt.

#[local] Set Warnings "-register-all".

Inductive node :=
  | File (c : content)
  | Dir (entries : gmap string node).

#[local] Set Warnings "register-all".

Abbreviation directory := (gmap string node).

(** The data directory. *)
Record fs := Fs {
  users_file : option content;          (* USERS_FILE, when it exists *)
  user_dirs : gmap string directory;    (* get_user_data_path(username) *)
  archive : gmap string directory;      (* ARCHIVE_DIR *)
  backups : gmap string directory;      (* BACKUP_DIR *)
}.

Definition set_users_file (c : option content) (s : fs) : fs :=
  Fs c (user_dirs s) (archive s) (backups s).

Definition set_user_dirs (d : gmap string directory) (s : fs) : fs :=
  Fs (users_file s) d (archive s) (backups s).

Definition set_archive (a : gmap string directory) (s : fs) : fs :=
  Fs (users_file s) (user_dirs s) a (backups s).

Definition set_backups (b : gmap string directory) (s : fs) : fs :=
  Fs (users_file s) (user_dirs s) (archive s) b.

(** ** Exceptions and the state monad *)

Inductive exn :=
  | FileNotFoundError | IsADirectoryError | FileExistsError | ShutilError
  | JSONDecodeError | KeyError | ValueError | OverflowError | AttributeError.

Inductive res (A : Type) :=
  | Ok (a : A)
  | Raise (e : exn).

Arguments Ok {A} a.

Arguments Raise {A} e.

Definition M (A : Type) : Type := fs → res A * fs.

Definition ret {A} (a : A) : M A := λ s, (Ok a, s).

Definition raise {A} (e : exn) : M A := λ s, (Raise e, s).

Definition bind {A B} (m : M A) (k : A → M B) : M B :=
  λ s, match m s with
       | (Ok a, s') => k a s'
       | (Raise e, s') => (Raise e, s')
       end.

Definition get : M fs := λ s, (Ok s, s).

Definition modify (f : fs → fs) : M unit := λ s, (Ok tt, f s).

Definition lift {A} (r : res A) : M A := λ s, (r, s).

(** [try: m except Exception as e: h e] *)
Definition try_except {A} (m : M A) (h : exn → M A) : M A :=
  λ s, match m s with
       | (Ok a, s') => (Ok a, s')
       | (Raise e, s') => h e s'
       end.

Declare Scope py_scope.

Delimit Scope py_scope with py.

Notation "x <- m ;; k" := (bind m (λ x, k))
  (at level 100, m at next level, right associativity) : py_scope.

Notation "m ;; k" := (bind m (λ _, k))
  (at level 100, right associativity) : py_scope.

Local Open Scope py_scope.

(** [for x in l: body x] *)
Fixpoint for_each {A} (l : list A) (body : A → M unit) : M unit :=
  match l with
  | [] => ret tt
  | x :: l' => body x ;; for_each l' body
  end.

(** The text shown to the user: a literal, or a prefix followed by
    [str(e)] (the wording of Python's exception texts is not modelled). *)
Inductive message :=
  | Text (s : string)
  | ErrorText (prefix : string) (e : exn).

(** ** Paths and primitive file operations *)

(** A per-user file: the user directory and the file name in it. *)
Definition path : Type := string * string.

Definition get_user_data_path (username : string) : string := username.

Record user_files := UserFiles { exercises : path; workouts : path }.

Definition get_user_files (username : string) : user_files :=
  let user_dir := get_user_data_path username in
  UserFiles (user_dir, "exercises.json") (user_dir, "workouts.json").

Definition lookup_path (p : path) (s : fs) : option node :=
  d ← user_dirs s !! p.1; d !! p.2.

(** [os.path.exists] *)
Definition exists_dir (user_dir : string) (s : fs) : bool :=
  bool_decide (is_Some (user_dirs s !! user_dir)).

Definition exists_path (p : path) (s : fs) : bool :=
  bool_decide (is_Some (lookup_path p s)).

(** [json.load(open(p, 'r'))] *)
Definition parse_json (n : option node) : res content :=
  match n with
  | None => Raise FileNotFoundError
  | Some (Dir _) => Raise IsADirectoryError
  | Some (File Corrupt) => Raise JSONDecodeError
  | Some (File c) => Ok c
  end.

Definition read_json (p : path) : M content :=
  s <- get ;; lift (parse_json (lookup_path p s)).

(** [json.dump(c, open(p, 'w'))] *)
Definition write_json (p : path) (c : content) : M unit :=
  s <- get ;;
  match user_dirs s !! p.1 with
  | None => raise FileNotFoundError
  | Some d =>
      match d !! p.2 with
      | Some (Dir _) => raise IsADirectoryError
      | _ => modify (set_user_dirs (<[p.1 := <[p.2 := File c]> d]> (user_dirs s)))
      end
  end.

(** [os.listdir] *)
Definition listdir {A} (m : gmap string A) : list string := (map_to_list m).*1.

(** [sorted] on a list of strings *)
Definition sorted (l : list string) : list string := merge_sort String.le l.

(** ** The registry and the per-user store *)

Definition load_users : M (list user) :=
  s <- get ;;
  match users_file s with
  | None => raise FileNotFoundError
  | Some Corrupt => raise JSONDecodeError
  | Some (Users l) => ret l
  | Some _ => raise KeyError
  end.

(** [json.dump({"users": users}, open(USERS_FILE, 'w'))] *)
Definition write_users (users : list user) : M unit :=
  modify (set_users_file (Some (Users users))).

Definition init_data_storage : M unit :=
  s <- get ;;
  if bool_decide (is_Some (users_file s)) then ret tt else write_users [].

Definition init_user_storage (username : string) : M unit :=
  let user_dir := get_user_data_path username in
  (s <- get ;;
   if exists_dir user_dir s then ret tt
   else modify (set_user_dirs (<[user_dir := ∅]> (user_dirs s)))) ;;
  let user_files := get_user_files username in
  let default_data :=
    [(exercises user_files, Exercises []); (workouts user_files, Workouts [])] in
  for_each default_data (λ '(file_path, default_content),
    s <- get ;;
    if exists_path file_path s then ret tt
    else write_json file_path default_content).

Definition has_name (name : string) (u : user) : bool :=
  bool_decide (u_name u = name).

Definition load_exercises (username : string) : M (list exercise) :=
  data <- read_json (exercises (get_user_files username)) ;;
  match data with
  | Exercises l => ret l
  | _ => raise KeyError
  end.

Definition load_workouts (username : string) : M (list workout) :=
  data <- read_json (workouts (get_user_files username)) ;;
  match data with
  | Workouts l => ret l
  | _ => raise KeyError
  end.

(** ** Lifecycle: backup, register, delete *)

(** [shutil.copytree(src, dst)] into the backup folder [backup_path]. *)
Definition copytree_to_backup (src : directory) (backup_path username : string)
  : M unit :=
  s <- get ;;
  match backups s !! backup_path with
  | None => raise FileNotFoundError
  | Some b =>
      match b !! username with
      | Some _ => raise FileExistsError
      | None =>
          modify (set_backups (<[backup_path := <[username := Dir src]> b]> (backups s)))
      end
  end.

(** [shutil.copy2(USERS_FILE, os.path.join(backup_path, "users.json"))];
    when the destination is a directory the file is copied into it. *)
Definition copy2_users_file (backup_path : string) : M unit :=
  s <- get ;;
  match users_file s, backups s !! backup_path with
  | None, _ => raise FileNotFoundError
  | Some _, None => raise FileNotFoundError
  | Some c, Some b =>
      match b !! "users.json" with
      | Some (Dir d) =>
          match d !! "users.json" with
          | Some (Dir _) => raise IsADirectoryError
          | _ =>
              modify (set_backups
                (<[backup_path := <["users.json" := Dir (<["users.json" := File c]> d)]> b]>
                   (backups s)))
          end
      | _ =>
          modify (set_backups (<[backup_path := <["users.json" := File c]> b]> (backups s)))
      end
  end.

Definition create_backup (timestamp : string) : M unit :=
  let backup_path := "backup_" +:+ timestamp in
  (s <- get ;;
   if bool_decide (is_Some (backups s !! backup_path)) then ret tt
   else modify (set_backups (<[backup_path := ∅]> (backups s)))) ;;
  (* Backup users file *)
  copy2_users_file backup_path ;;
  (* Backup each user's data *)
  users <- load_users ;;
  for_each users (λ user,
    let username := u_name user in
    let user_dir := get_user_data_path username in
    s <- get ;;
    match user_dirs s !! user_dir with
    | Some d => copytree_to_backup d backup_path username
    | None => ret tt
    end) ;;
  (* Keep only last 5 backups *)
  s <- get ;;
  let backups_ := sorted (filter (λ d, PyStr.startswith "backup_" d = true)
                                 (listdir (backups s))) in
  if bool_decide (5 < length backups_) then
    for_each (take (length backups_ - 5) backups_) (λ old_backup,
      modify (λ s, set_backups (delete old_backup (backups s)) s))
  else ret tt.

Definition newline : string := String (ascii_of_nat 10) EmptyString.

(** [save_user(name)]; [protection_code] stands for the four random
    digits joined, [now] for [datetime.now().isoformat()]. *)
Definition save_user (name protection_code now : string) : M (bool * message) :=
  users <- load_users ;;
  (* Check if user already exists *)
  if existsb (has_name name) users then ret (false, Text "User already exists")
  else
    write_users (users ++ [User (length users + 1) name now (Some protection_code)]) ;;
    (* Initialize storage for new user *)
    init_user_storage name ;;
    ret (true, Text ("Added user: " +:+ name +:+ newline
                     +:+ "Your protection code is: " +:+ protection_code +:+ newline
                     +:+ "Please save this code - you'll need it to delete your data.")).

(** [shutil.move(user_dir, archive_user_dir)]: a rename, or a move into
    the destination when that is an existing directory. *)
Definition move_to_archive (user_dir archive_name : string) : M unit :=
  s <- get ;;
  match user_dirs s !! user_dir with
  | None => raise FileNotFoundError
  | Some d =>
      match archive s !! archive_name with
      | None =>
          modify (λ s, set_archive (<[archive_name := d]> (archive s))
                         (set_user_dirs (delete user_dir (user_dirs s)) s))
      | Some a =>
          match a !! user_dir with
          | Some _ => raise ShutilError
          | None =>
              modify (λ s, set_archive (<[archive_name := <[user_dir := Dir d]> a]> (archive s))
                             (set_user_dirs (delete user_dir (user_dirs s)) s))
          end
      end
  end.

(** [delete_user(name)]; [protection_code] is the text entered in the
    form, [backup_stamp] and [archive_stamp] the two readings of
    [datetime.now().strftime('%Y%m%d_%H%M%S')]. *)
Definition delete_user (name protection_code backup_stamp archive_stamp : string)
  : M (bool * message) :=
  users <- load_users ;;
  match find (has_name name) users with
  | None => ret (false, Text "User not found")
  | Some user =>
      if bool_decide (protection_code = "") then
        ret (false, Text "Please enter the protection code")
      else if bool_decide (Some protection_code ≠ u_protection_code user) then
        ret (false, Text "Incorrect protection code")
      else
        (* Create backup before deletion *)
        create_backup backup_stamp ;;
        (* Proceed with deletion *)
        write_users (filter (λ u, u_name u ≠ name) users) ;;
        let user_dir := get_user_data_path name in
        (s <- get ;;
         if exists_dir user_dir s then
           move_to_archive user_dir (name +:+ "_" +:+ archive_stamp)
         else ret tt) ;;
        ret (true, Text ("Deleted user: " +:+ name))
  end.

(** ** Per-user store: exercises and workouts *)

(** The loop of [save_exercise]: replace the first entry whose normalized
    name is [normalized_name]; [None] when the loop ends without [break]. *)
Fixpoint replace_first (normalized_name muscle_group : string)
    (exercises : list exercise) : option (list exercise) :=
  match exercises with
  | [] => None
  | ex :: rest =>
      if bool_decide (normalize_exercise_name (ex_name ex) = normalized_name) then
        Some (Exercise normalized_name muscle_group (ex_created_at ex) :: rest)
      else cons ex <$> replace_first normalized_name muscle_group rest
  end.

(** [save_exercise(name, muscle_group, username)] at clock reading [now]. *)
Definition save_exercise (name muscle_group username now : string) : M unit :=
  exercises_ <- load_exercises username ;;
  let normalized_name := normalize_exercise_name name in
  let exercises_ :=
    match replace_first normalized_name muscle_group exercises_ with
    | Some l => l
    | None => exercises_ ++ [Exercise normalized_name muscle_group now]
    end in
  let user_files := get_user_files username in
  write_json (exercises user_files) (Exercises exercises_).

(** [save_workout(exercise, weight, reps, username)]; [today] is
    [datetime.now().strftime('%Y-%m-%d')]. *)
Definition save_workout (exercise_ : string) (weight : pyfloat) (reps : Z)
    (username today : string) : M unit :=
  workouts_ <- load_workouts username ;;
  let workouts_ := workouts_ ++ [Workout today exercise_ weight reps] in
  let user_files := get_user_files username in
  write_json (workouts user_files) (Workouts workouts_).

(** [delete_exercise(name, username)] *)
Definition delete_exercise (name username : string) : M unit :=
  exercises_ <- load_exercises username ;;
  let exercises_ := filter (λ ex, ex_name ex ≠ name) exercises_ in
  let user_files := get_user_files username in
  write_json (exercises user_files) (Exercises exercises_).

(** ** Lifecycle: restore from the archive *)

(** The archive folders of [username]:
    [[d for d in os.listdir(ARCHIVE_DIR) if d.startswith(username + '_')]] *)
Definition user_archives (username : string) (s : fs) : list string :=
  filter (λ d, PyStr.startswith (username +:+ "_") d = true) (listdir (archive s)).

(** [shutil.copytree(archive_path, user_dir)] *)
Definition copytree_from_archive (archive_name user_dir : string) : M unit :=
  s <- get ;;
  match archive s !! archive_name with
  | None => raise FileNotFoundError
  | Some a =>
      if exists_dir user_dir s then raise FileExistsError
      else modify (set_user_dirs (<[user_dir := a]> (user_dirs s)))
  end.

(** [restore_user(username)] at clock reading [now]. *)
Definition restore_user (username now : string) : M (bool * message) :=
  s <- get ;;
  (* Find most recent archive for this user *)
  let user_archives_ := user_archives username s in
  if bool_decide (user_archives_ = []) then
    ret (false, Text ("No archive found for " +:+ username))
  else
    (* Sort by timestamp to get most recent *)
    let latest_archive := default "" (last (sorted user_archives_)) in
    (* Check if user already exists *)
    users <- load_users ;;
    if existsb (has_name username) users then
      ret (false, Text ("User " +:+ username +:+ " already exists"))
    else
      try_except
        ((* Add user back to users list *)
         write_users (users ++ [User (length users + 1) username now None]) ;;
         (* Initialize storage for the restored user *)
         init_user_storage username ;;
         (* Remove existing user directory if it exists (cleanup) *)
         let user_dir := get_user_data_path username in
         (s <- get ;;
          if exists_dir user_dir s then
            modify (set_user_dirs (delete user_dir (user_dirs s)))
          else ret tt) ;;
         (* Copy data from archive *)
         copytree_from_archive latest_archive user_dir ;;
         (* Remove the archive *)
         modify (λ s, set_archive (delete latest_archive (archive s)) s) ;;
         ret (true, Text ("Restored user: " +:+ username)))
        (λ e, ret (false, ErrorText "Error restoring user: " e)).

(** ** Snapshot export and import *)

(** The value of [backup_data]: an insertion-ordered dict per user. *)
Record user_snapshot := UserSnapshot {
  snap_exercises : content;     (* user_data['exercises'] *)
  snap_workouts : content;      (* user_data['workouts'] *)
}.

Record snapshot := Snapshot {
  snap_timestamp : string;
  snap_users : list user;
  snap_user_data : list (string * user_snapshot);
}.

(** [d[k] = v] on an insertion-ordered dict *)
Fixpoint dict_set {V} (k : string) (v : V) (d : list (string * V))
  : list (string * V) :=
  match d with
  | [] => [(k, v)]
  | (k', v') :: d' =>
      if bool_decide (k' = k) then (k, v) :: d' else (k', v') :: dict_set k v d'
  end.

(** The body of the [try] in [create_backup_file]: both files of one
    user, or the exception that makes the loop [continue]. *)
Definition read_user_snapshot (username : string) (s : fs) : res user_snapshot :=
  let user_files := get_user_files username in
  match parse_json (lookup_path (exercises user_files) s) with
  | Raise e => Raise e
  | Ok ex =>
      match parse_json (lookup_path (workouts user_files) s) with
      | Raise e => Raise e
      | Ok wk => Ok (UserSnapshot ex wk)
      end
  end.

Fixpoint collect_user_data (users : list user) (s : fs)
    (user_data : list (string * user_snapshot)) : list (string * user_snapshot) :=
  match users with
  | [] => user_data
  | user :: rest =>
      let username := u_name user in
      match read_user_snapshot username s with
      | Ok user_data_ => collect_user_data rest s (dict_set username user_data_ user_data)
      | Raise _ => collect_user_data rest s user_data
      end
  end.

(** [create_backup_file()] at clock reading [now]; the JSON text returned
    by [json.dumps] is identified with the value it encodes. *)
Definition create_backup_file (now : string) : M snapshot :=
  (* Get users data *)
  users <- load_users ;;
  (* Get each user's data *)
  s <- get ;;
  ret (Snapshot now users (collect_user_data users s [])).

(** One round of the loop of [restore_from_backup_file], over
    [backup_data['user_data'].items()]. *)
Definition import_one (entry : string * user_snapshot) : M unit :=
  let '(username, user_data) := entry in
  (* Create user directory *)
  init_user_storage username ;;
  let user_files := get_user_files username in
  (* Save exercises *)
  write_json (exercises user_files) (snap_exercises user_data) ;;
  (* Save workouts *)
  write_json (workouts user_files) (snap_workouts user_data).

(** [restore_from_backup_file(backup_content)], on the decoded value. *)
Definition restore_from_backup_file (backup_data : snapshot) : M (bool * message) :=
  try_except
    ((* Restore users *)
     write_users (snap_users backup_data) ;;
     (* Restore each user's data *)
     for_each (snap_user_data backup_data) import_one ;;
     ret (true, Text "Backup restored successfully"))
    (λ e, ret (false, ErrorText "Error restoring backup: " e)).

(** ** The workout log: the last workout and the CSV import *)

(** [[f(x) for x in l]], stopping at the first exception. *)
Fixpoint map_res {A B} (f : A → res B) (l : list A) : res (list B) :=
  match l with
  | [] => Ok []
  | x :: l' =>
      match f x with
      | Raise e => Raise e
      | Ok y =>
          match map_res f l' with
          | Raise e => Raise e
          | Ok ys => Ok (y :: ys)
          end
      end
  end.

(** A row of [pd.DataFrame(workouts)] once the date column is parsed. *)
Record row := Row {
  row_date : Z;
  row_exercise : string;
  row_weight : pyfloat;
  row_reps : Z;
}.

(** [df.sort_values('date', ascending=False)]: latest date first.  Rows
    of equal date are kept in stored order here; which of them pandas
    puts first is a matter of its sort routine, and no statement below
    depends on it. *)
Fixpoint insert_desc (r : row) (sorted_ : list row) : list row :=
  match sorted_ with
  | [] => [r]
  | r' :: rest =>
      if bool_decide (row_date r' ≤ row_date r)%Z then r :: sorted_
      else r' :: insert_desc r rest
  end.

Fixpoint sort_values_desc (df : list row) : list row :=
  match df with
  | [] => []
  | r :: rest => insert_desc r (sort_values_desc rest)
  end.

(** A cell of the frame read by [pd.read_csv]. *)
Inductive cell :=
  | CStr (s : string)
  | CInt (z : Z)
  | CFloat (f : pyfloat).

(** One of [df.to_dict('records')], at the four required columns. *)
Record record := Record_ {
  r_date : cell;
  r_exercise : cell;
  r_weight : cell;
  r_reps : cell;
}.

Record dataframe := DataFrame {
  df_columns : list string;
  df_records : list record;
}.

(** [df[col].unique()]: first occurrences, in order. *)
Fixpoint unique_from (seen l : list string) : list string :=
  match l with
  | [] => []
  | x :: l' =>
      if bool_decide (x ∈ seen) then unique_from seen l'
      else x :: unique_from (x :: seen) l'
  end.

Definition unique (l : list string) : list string := unique_from [] l.

(** [int(f)] on a float: truncation toward zero. *)
Definition trunc (m e : Z) : Z :=
  if bool_decide (0 ≤ e)%Z then (m * 2 ^ e)%Z else (m ÷ 2 ^ (- e))%Z.

Section Pandas.
(** The parts of pandas and of Python's number parsing that are taken
    as given: [pd.to_datetime(text, format='mixed')] as an instant,
    [pd.to_datetime(cell).strftime('%Y-%m-%d')], and [float] and [int]
    on a text.  [None] stands for the exception they raise. *)
Variable to_datetime : string → option Z.
Variable to_date : cell → option string.
Variable str_to_float : string → option pyfloat.
Variable str_to_int : string → option Z.

Definition parse_row (w : workout) : res row :=
  match to_datetime (w_date w) with
  | Some t => Ok (Row t (w_exercise w) (w_weight w) (w_reps w))
  | None => Raise ValueError
  end.

(** [get_last_workout(exercise, username)] *)
Definition get_last_workout (exercise_ username : string) : M (option row) :=
  workouts_ <- load_workouts username ;;
  if bool_decide (workouts_ = []) then ret None
  else
    (* Handle date parsing with mixed formats *)
    df <- lift (map_res parse_row workouts_) ;;
    (* Filter for exercise *)
    let exercise_df :=
      sort_values_desc (filter (λ r, row_exercise r = exercise_) df) in
    ret (head exercise_df).

(** [float(x)] and [int(x)] on a cell *)
Definition py_float (x : cell) : res pyfloat :=
  match x with
  | CInt z => Ok (Finite z 0)
  | CFloat f => Ok f
  | CStr s => from_option Ok (Raise ValueError) (str_to_float s)
  end.

Definition py_int (x : cell) : res Z :=
  match x with
  | CInt z => Ok z
  | CFloat (Finite m e) => Ok (trunc m e)
  | CFloat NaN => Raise ValueError
  | CFloat (Inf _) => Raise OverflowError
  | CStr s => from_option Ok (Raise ValueError) (str_to_int s)
  end.

(** One round of the loop over [new_workouts]. *)
Definition coerce_workout (workout_ : record * string) : res workout :=
  match to_date (r_date workout_.1) with
  | None => Raise ValueError
  | Some date =>
      match py_float (r_weight workout_.1) with
      | Raise e => Raise e
      | Ok weight =>
          match py_int (r_reps workout_.1) with
          | Raise e => Raise e
          | Ok reps => Ok (Workout date workout_.2 weight reps)
          end
      end
  end.

(** [df['exercise'].apply(normalize_exercise_name)], row by row. *)
Definition apply_normalize (r : record) : res (record * string) :=
  match r_exercise r with
  | CStr s => Ok (r, normalize_exercise_name s)
  | _ => Raise AttributeError
  end.

(** [import_from_csv(file, username)]; [file] is the outcome of
    [pd.read_csv], [now i] the clock reading for the [i]-th new
    exercise. *)
Definition import_from_csv (file : res dataframe) (username : string)
    (now : nat → string) : M (bool * message) :=
  try_except
    (df <- lift file ;;
     let required_columns := ["date"; "exercise"; "weight"; "reps"] in
     if negb (forallb (λ col, bool_decide (col ∈ df_columns df)) required_columns)
     then ret (false, Text "CSV must contain columns: date, exercise, weight, reps")
     else
       df_ <- lift (map_res apply_normalize (df_records df)) ;;
       (* Add new exercises to user's exercise database *)
       existing_exercises <- load_exercises username ;;
       let existing_names :=
         (λ ex, normalize_exercise_name (ex_name ex)) <$> existing_exercises in
       let new_exercises :=
         imap (λ i exercise_name, Exercise exercise_name "Other" (now i))
           (filter (λ exercise_name, exercise_name ∉ existing_names)
                   (PyStr.strip <$> unique df_.*2)) in
       (if bool_decide (new_exercises = []) then ret tt
        else
          let user_files := get_user_files username in
          write_json (exercises user_files)
            (Exercises (existing_exercises ++ new_exercises))) ;;
       (* Import workout data *)
       workouts_ <- load_workouts username ;;
       let new_workouts := df_ in
       appended <- lift (map_res coerce_workout new_workouts) ;;
       let user_files := get_user_files username in
       write_json (workouts user_files) (Workouts (workouts_ ++ appended)) ;;
       let message_ := "Imported " +:+ pretty (length new_workouts) +:+ " workouts" in
       let message_ :=
         if bool_decide (new_exercises = []) then message_
         else message_ +:+ " and added " +:+ pretty (length new_exercises)
              +:+ " new exercises. Please categorize them in the Exercises tab." in
       ret (true, Text message_))
    (λ e, ret (false, ErrorText "Error importing data: " e)).
End Pandas.

(** ** Concrete readings of dates and numbers, for the examples *)

Definition digit (c : ascii) : option Z := Z.of_nat <$> Ascii.is_nat c.

Definition two_digits (a b : ascii) : option Z :=
  x ← digit a; y ← digit b; Some (10 * x + y)%Z.

(** ["YYYY-MM-DD"], read as the number [YYYYMMDD]; only the order of
    the results matters. *)
Definition iso_to_datetime (s : string) : option Z :=
  match s with
  | String y1 (String y2 (String y3 (String y4 (String "-"
      (String m1 (String m2 (String "-" (String d1 (String d2 EmptyString))))))))) =>
      hi ← two_digits y1 y2; lo ← two_digits y3 y4;
      m ← two_digits m1 m2; d ← two_digits d1 d2;
      Some ((hi * 100 + lo) * 10000 + m * 100 + d)%Z
  | _ => None
  end.

Definition iso_to_date (x : cell) : option string :=
  match x with
  | CStr s => match iso_to_datetime s with Some _ => Some s | None => None end
  | _ => None
  end.

Fixpoint decimal_from (acc : Z) (s : string) : option Z :=
  match s with
  | EmptyString => Some acc
  | String c s' => d ← digit c; decimal_from (10 * acc + d)%Z s'
  end.

(** Plain digit strings. *)
Definition decimal_int (s : string) : option Z :=
  match s with
  | EmptyString => None
  | _ => decimal_from 0 s
  end.

Definition decimal_float (s : string) : option pyfloat :=
  (λ z, Finite z 0) <$> decimal_int s.

(** ** Notions used in the statements and their proofs *)

Definition names (users : list user) : list string := u_name <$> users.

(** A freshly initialized data directory: [init_data_storage()] on an
    empty disk. *)
Definition empty_disk : fs := Fs None ∅ ∅ ∅.

Definition fresh : fs := (init_data_storage empty_disk).2.

Definition active (username : string) (s : fs) : Prop :=
  ∃ users, users_file s = Some (Users users) ∧ username ∈ names users.

Definition two_files : directory :=
  <["workouts.json" := File (Workouts [])]>
    (<["exercises.json" := File (Exercises [])]> ∅).

Definition has_key (key : string) (ex : exercise) : Prop :=
  normalize_exercise_name (ex_name ex) = key.

#[local] Instance has_key_dec key ex : Decision (has_key key ex).
Proof. unfold has_key. apply _. Defined.

(** The catalog that [save_exercise] writes. *)
Definition upsert (name muscle_group now : string) (catalog : list exercise)
  : list exercise :=
  let normalized_name := normalize_exercise_name name in
  match replace_first normalized_name muscle_group catalog with
  | Some l => l
  | None => catalog ++ [Exercise normalized_name muscle_group now]
  end.

(** The directory [init_user_storage] leaves: missing default files are
    added, existing entries are kept. *)
Definition with_defaults (d : directory) : directory :=
  let d1 := match d !! "exercises.json" with
            | Some _ => d
            | None => <["exercises.json" := File (Exercises [])]> d
            end in
  match d1 !! "workouts.json" with
  | Some _ => d1
  | None => <["workouts.json" := File (Workouts [])]> d1
  end.

(** A computation that leaves the registry, the user directories and the
    archive alone, whatever it returns or raises. *)
Definition keeps_store {A} (m : M A) : Prop :=
  ∀ s, users_file (m s).2 = users_file s
       ∧ user_dirs (m s).2 = user_dirs s
       ∧ archive (m s).2 = archive s.

Definition is_file (n : option node) : Prop := ∃ c, n = Some (File c).

Definition has_files (d : directory) : Prop :=
  is_file (d !! "exercises.json") ∧ is_file (d !! "workouts.json").

(** Both per-user files of [username] exist on disk. *)
Definition store_files_exist (username : string) (s : fs) : Prop :=
  is_file (lookup_path (exercises (get_user_files username)) s)
  ∧ is_file (lookup_path (workouts (get_user_files username)) s).

(** The per-user files exist exactly for the active users. *)
Definition files_iff_active (s : fs) : Prop :=
  ∀ username, store_files_exist username s ↔ active username s.

Inductive op :=
  | Register (name protection_code now : string)
  | Delete (name protection_code backup_stamp archive_stamp : string)
  | Restore (username now : string)
  | ImportSnapshot (backup_data : snapshot).

(** The data directory after one operation, whatever it returned. *)
Definition step (o : op) (s : fs) : fs :=
  match o with
  | Register name protection_code now =>
      (save_user name protection_code now s).2
  | Delete name protection_code backup_stamp archive_stamp =>
      (delete_user name protection_code backup_stamp archive_stamp s).2
  | Restore username now => (restore_user username now s).2
  | ImportSnapshot backup_data => (restore_from_backup_file backup_data s).2
  end.

Definition run (ops : list op) (s : fs) : fs := foldl (λ s o, step o s) s ops.

(** A username that names a directory of its own directly under the data
    directory: a single path component, not one of the entries the
    application keeps there. *)
Definition plain_name (name : string) : bool :=
  negb (bool_decide
          (name ∈ [""; "."; ".."; "users.json"; "archived_users"; "backups"]))
  && PyStr.all_chars (λ c, negb (bool_decide (c = "/"%char))) name.

(** The operations of the amended invariant: plain usernames, no snapshot
    import, and a deletion only into an archive folder name that is not
    taken. *)
Definition lifecycle_op (o : op) (s : fs) : Prop :=
  match o with
  | Register name _ _ | Restore name _ => plain_name name = true
  | Delete name _ _ archive_stamp =>
      plain_name name = true
      ∧ archive s !! (name +:+ "_" +:+ archive_stamp) = None
  | ImportSnapshot _ => False
  end.

Inductive reachable : fs → Prop :=
  | reachable_fresh : reachable fresh
  | reachable_step o s : reachable s → lifecycle_op o s → reachable (step o s).

Record lifecycle_inv (s : fs) (users : list user) : Prop := {
  inv_registry : users_file s = Some (Users users);
  inv_dirs : ∀ n, n ∈ names users ↔ is_Some (user_dirs s !! n);
  inv_user_files : ∀ n d, user_dirs s !! n = Some d → has_files d;
  inv_archive_files : ∀ k a, archive s !! k = Some a → has_files a;
}.

Definition readable (username : string) (s : fs) : Prop :=
  ∃ v, read_user_snapshot username s = Ok v.

Definition not_dir (n : option node) : Prop := ∀ entries, n ≠ Some (Dir entries).

(** Nothing stands in the way of writing the two files of [username]. *)
Definition writable (username : string) (s : fs) : Prop :=
  ∀ d, user_dirs s !! username = Some d →
       not_dir (d !! "exercises.json") ∧ not_dir (d !! "workouts.json").

(** The directory of [username] after one round of the import loop. *)
Definition imported (v : user_snapshot) (d : directory) : directory :=
  <["workouts.json" := File (snap_workouts v)]>
    (<["exercises.json" := File (snap_exercises v)]> (with_defaults d)).

Definition holds (v : user_snapshot) (d : directory) : Prop :=
  d !! "exercises.json" = Some (File (snap_exercises v))
  ∧ d !! "workouts.json" = Some (File (snap_workouts v)).

(** [s'] differs from [s] at most in the exercises file of [username]. *)
Definition same_but_exercises (username : string) (s s' : fs) : Prop :=
  users_file s' = users_file s ∧ archive s' = archive s
  ∧ backups s' = backups s
  ∧ ∀ p, p ≠ exercises (get_user_files username) →
         lookup_path p s' = lookup_path p s.

(** Date, weight and reps of the row can all be coerced. *)
Definition coercible (to_date : cell → option string)
    (str_to_float : string → option pyfloat) (str_to_int : string → option Z)
    (r : record) : Prop :=
  is_Some (to_date (r_date r))
  ∧ (∃ f, py_float str_to_float (r_weight r) = Ok f)
  ∧ (∃ z, py_int str_to_int (r_reps r) = Ok z).

(** ** More of the data layer: archived names, the exercise import *)

(** [d.rsplit('_', 1)[0]]: what stands before the last underscore, or
    all of [d] when it has none. *)
Fixpoint rsplit_head (d : string) : string :=
  match d with
  | EmptyString => EmptyString
  | String c d' =>
      if PyStr.all_chars (λ x, negb (bool_decide (x = "_"%char))) d' then
        if bool_decide (c = "_"%char) then EmptyString else d
      else String c (rsplit_head d')
  end.

(** [get_archived_users()]; the archive root of the model always
    exists, so the early [return []] has no counterpart. *)
Definition get_archived_users (s : fs) : list string :=
  let archived_users := rsplit_head <$> listdir (archive s) in
  (* Return unique usernames sorted alphabetically *)
  sorted (remove_dups archived_users).

(** [row['exercise'].strip()] on a row of [df.iterrows()]. *)
Definition row_exercise_strip (df : dataframe) (r : record) : res string :=
  if bool_decide ("exercise" ∈ df_columns df) then
    match r_exercise r with
    | CStr s => Ok (PyStr.strip s)
    | _ => Raise AttributeError
    end
  else Raise KeyError.

(** [import_exercises_from_csv(file, username)]; [file] is the outcome
    of [pd.read_csv], [now i] the clock reading for the [i]-th new
    exercise. *)
Definition import_exercises_from_csv (file : res dataframe) (username : string)
    (now : nat → string) : M (bool * message) :=
  try_except
    (df <- lift file ;;
     (* Get existing exercises *)
     existing <- load_exercises username ;;
     let existing_names := (λ ex, PyStr.lower (ex_name ex)) <$> existing in
     (* Process new exercises *)
     stripped <- lift (map_res (row_exercise_strip df) (df_records df)) ;;
     let new_exercises :=
       imap (λ i exercise_name, Exercise exercise_name "Other" (now i))
         (filter (λ exercise_name, PyStr.lower exercise_name ∉ existing_names)
                 stripped) in
     if bool_decide (new_exercises = []) then
       ret (true, Text "No new exercises to add")
     else
       let user_files := get_user_files username in
       write_json (exercises user_files) (Exercises (existing ++ new_exercises)) ;;
       ret (true, Text ("Added " +:+ pretty (length new_exercises)
                        +:+ " new exercises. Please categorize them in the Exercises tab.")))
    (λ e, ret (false, ErrorText "Error importing exercises: " e)).

(** ** Further notions used in the statements *)

(** The normalized names of a catalog, in order. *)
Definition keys (catalog : list exercise) : list string :=
  (λ ex, normalize_exercise_name (ex_name ex)) <$> catalog.



Definition is_import (o : op) : bool :=
  match o with
  | ImportSnapshot _ => true
  | _ => false
  end.


(** Every run of [m] relates the state before to the state after by [R],
    whether [m] returns or raises. *)
Definition preserves {A} (R : fs → fs → Prop) (m : M A) : Prop :=
  ∀ s, R s (m s).2.

(** [s'] has the backup root of [s] except possibly for the folder
    [backup_path], which is not removed. *)
Definition backups_agree_off (backup_path : string) (s s' : fs) : Prop :=
  (∀ k, k ≠ backup_path → backups s' !! k = backups s !! k)
  ∧ (is_Some (backups s !! backup_path) → is_Some (backups s' !! backup_path)).


(** The workout that a row of the imported frame becomes. *)
Definition reads_as (to_date : cell → option string)
    (str_to_float : string → option pyfloat) (str_to_int : string → option Z)
    (r : record) (w : workout) : Prop :=
  ∃ x, r_exercise r = CStr x
       ∧ w_exercise w = normalize_exercise_name x
       ∧ to_date (r_date r) = Some (w_date w)
       ∧ py_float str_to_float (r_weight r) = Ok (w_weight w)
       ∧ py_int str_to_int (r_reps r) = Ok (w_reps w).

(** [s'] differs from [s] at most in the user directories. *)
Definition same_but_user_dirs (s s' : fs) : Prop :=
  users_file s' = users_file s ∧ archive s' = archive s
  ∧ backups s' = backups s.

(** The names of a readable registry are pairwise distinct. *)
Definition registry_names_distinct (s : fs) : Prop :=
  ∀ users, users_file s = Some (Users users) → NoDup (names users).

(** * Part II. Properties *)

(** ** Characters and case *)

Module PyStrFacts.
Import PyStr.

Lemma lower_char_idem c : lower_char (lower_char c) = lower_char c.
Proof. by destruct c as [[] [] [] [] [] [] [] []]. Qed.

Lemma lower_char_not_upper c : isupper (lower_char c) = false.
Proof. by destruct c as [[] [] [] [] [] [] [] []]. Qed.

Lemma not_upper_lower_char c : isupper c = false → lower_char c = c.
Proof. unfold lower_char. by intros ->. Qed.

Lemma blank_isspace c : is_blank c = true → isspace c = true.
Proof. unfold is_blank. intros ->%bool_decide_eq_true. done. Qed.

Lemma lower_all_not_upper s : all_chars (λ c, negb (isupper c)) (lower s) = true.
Proof.
  induction s as [|c s IH]; simpl; [done|].
  by rewrite lower_char_not_upper, IH.
Qed.

Lemma lower_fixed s :
  all_chars (λ c, negb (isupper c)) s = true → lower s = s.
Proof.
  induction s as [|c s IH]; simpl; [done|].
  intros [Hc Hs]%andb_prop. rewrite IH by done.
  by rewrite not_upper_lower_char by by apply negb_true_iff.
Qed.

Lemma all_chars_app P s1 s2 :
  all_chars P (s1 +:+ s2) = all_chars P s1 && all_chars P s2.
Proof.
  induction s1 as [|c s1 IH]; simpl; [done|].
  change (String c s1 +:+ s2) with (String c (s1 +:+ s2)). simpl.
  by rewrite IH, andb_assoc.
Qed.

Lemma app_empty_r s : s +:+ EmptyString = s.
Proof.
  induction s as [|c s IH]; [done|].
  change (String c s +:+ EmptyString) with (String c (s +:+ EmptyString)).
  by rewrite IH.
Qed.

End PyStrFacts.

(** ** [split] and [join] *)

Module SplitJoin.
Import PyStr PyStrFacts.

Lemma cons_head_words c ws :
  isspace c = false →
  Forall (λ w, is_word w = true) ws →
  Forall (λ w, is_word w = true) (cons_head c ws).
Proof.
  intros Hc Hws. destruct ws as [|w ws]; simpl.
  - constructor; [|done]. unfold is_word. simpl. by rewrite Hc.
  - inversion_clear Hws as [|?? Hw Hrest]. constructor; [|done].
    unfold is_word in *. simpl. rewrite Hc. simpl.
    by apply andb_prop in Hw as [_ ->].
Qed.

Lemma split_words s : Forall (λ w, is_word w = true) (split s).
Proof.
  induction s as [|c s IH]; simpl; [constructor|].
  destruct (isspace c) eqn:Hc; [done|].
  destruct (at_break s).
  - constructor; [|done]. unfold is_word. simpl. by rewrite Hc.
  - by apply cons_head_words.
Qed.

Lemma split_all_chars P s :
  all_chars P s = true →
  Forall (λ w, all_chars P w = true) (split s).
Proof.
  induction s as [|c s IH]; simpl; [constructor|].
  intros [Hc Hs]%andb_prop. specialize (IH Hs).
  destruct (isspace c); [done|].
  destruct (at_break s).
  - constructor; [|done]. simpl. by rewrite Hc.
  - destruct IH as [|w ws Hw Hws]; simpl.
    + constructor; [|done]. simpl. by rewrite Hc.
    + constructor; [|done]. simpl. by rewrite Hc, Hw.
Qed.

(** A word followed by a break is the first element of the split. *)
Lemma split_word_break w rest :
  is_word w = true → at_break rest = true →
  split (w +:+ rest) = w :: split rest.
Proof.
  induction w as [|c w IH]; [done|].
  intros Hw Hrest. unfold is_word in Hw. simpl in Hw.
  apply andb_prop in Hw as [Hc Hcs]. apply negb_true_iff in Hc.
  change (String c w +:+ rest) with (String c (w +:+ rest)).
  simpl. rewrite Hc. destruct w as [|c' w].
  - change (EmptyString +:+ rest) with rest. by rewrite Hrest.
  - change (String c' w +:+ rest) with (String c' (w +:+ rest)) in *.
    simpl in Hcs. apply andb_prop in Hcs as [Hc' Hw'].
    simpl at_break. rewrite (proj1 (negb_true_iff _) Hc').
    rewrite IH; [done| |done].
    unfold is_word. simpl. by rewrite Hc', Hw'.
Qed.

Lemma split_join ws :
  Forall (λ w, is_word w = true) ws → split (join " " ws) = ws.
Proof.
  induction 1 as [|w ws Hw Hws IH]; [done|].
  simpl. destruct ws as [|w' ws].
  - rewrite <- (app_empty_r w) at 1. by rewrite split_word_break.
  - rewrite split_word_break; [|done|done].
    f_equal. exact IH.
Qed.

Lemma join_all_chars P ws :
  P " "%char = true →
  Forall (λ w, all_chars P w = true) ws →
  all_chars P (join " " ws) = true.
Proof.
  intros Hsp. induction 1 as [|w ws Hw Hws IH]; [done|].
  simpl. destruct ws as [|w' ws]; [done|].
  rewrite !all_chars_app, Hw, IH. simpl. by rewrite Hsp.
Qed.

Lemma first_char_app_word w rest :
  is_word w = true → first_char (w +:+ rest) = first_char w.
Proof. by destruct w. Qed.

Lemma word_first_not_space w :
  is_word w = true →
  from_option isspace false (first_char w) = false.
Proof.
  destruct w as [|c w]; [done|]. unfold is_word. simpl.
  intros [Hc _]%andb_prop. by apply negb_true_iff.
Qed.

Lemma join_first_not_space ws :
  Forall (λ w, is_word w = true) ws →
  from_option isspace false (first_char (join " " ws)) = false.
Proof.
  destruct 1 as [|w ws Hw Hws]; [done|].
  simpl. destruct ws as [|w' ws].
  - by apply word_first_not_space.
  - rewrite first_char_app_word by done. by apply word_first_not_space.
Qed.

Lemma last_char_app s1 s2 :
  s2 ≠ EmptyString → last_char (s1 +:+ s2) = last_char s2.
Proof.
  intros Hne. induction s1 as [|c s1 IH]; [done|].
  change (String c s1 +:+ s2) with (String c (s1 +:+ s2)).
  simpl. rewrite IH. destruct s1; [by destruct s2|done].
Qed.

Lemma word_last_not_space w :
  is_word w = true →
  from_option isspace false (last_char w) = false.
Proof.
  induction w as [|c w IH]; [done|]. unfold is_word in *. simpl in *.
  intros [Hc Hw]%andb_prop. destruct w as [|c' w].
  - by apply negb_true_iff.
  - apply IH. by rewrite Hw.
Qed.

Lemma join_nonempty w ws :
  is_word w = true → join " " (w :: ws) ≠ EmptyString.
Proof.
  intros Hw. simpl. destruct w as [|c w]; [done|]. by destruct ws.
Qed.

Lemma join_last_not_space ws :
  Forall (λ w, is_word w = true) ws →
  from_option isspace false (last_char (join " " ws)) = false.
Proof.
  induction 1 as [|w ws Hw Hws IH]; [done|].
  simpl. destruct ws as [|w' ws].
  - by apply word_last_not_space.
  - rewrite last_char_app.
    + rewrite last_char_app; [exact IH|].
      inversion_clear Hws. by apply join_nonempty.
    + done.
Qed.

Lemma no_double_space_word_app w rest :
  is_word w = true →
  no_double_space rest = true →
  no_double_space (w +:+ rest) = true.
Proof.
  induction w as [|c w IH]; [done|].
  unfold is_word. simpl. intros [Hc Hw]%andb_prop Hrest.
  change (String c w +:+ rest) with (String c (w +:+ rest)). simpl.
  assert (is_blank c = false) as ->.
  { destruct (is_blank c) eqn:Hb; [|done].
    apply blank_isspace in Hb. by rewrite Hb in Hc. }
  simpl. destruct w as [|c' w]; [done|].
  apply IH; [|done]. unfold is_word. simpl in *. exact Hw.
Qed.

Lemma join_no_double_space ws :
  Forall (λ w, is_word w = true) ws →
  no_double_space (join " " ws) = true.
Proof.
  induction 1 as [|w ws Hw Hws IH]; [done|].
  simpl. destruct ws as [|w' ws].
  - rewrite <- (app_empty_r w). by apply no_double_space_word_app.
  - apply no_double_space_word_app; [done|].
    change (" " +:+ join " " (w' :: ws))
      with (String " "%char (join " " (w' :: ws))).
    cbn [no_double_space]. rewrite IH, andb_true_r.
    apply negb_true_iff, andb_false_intro2.
    assert (from_option isspace false
              (first_char (join " " (w' :: ws))) = false) as Hf.
    { by apply join_first_not_space. }
    destruct (first_char (join " " (w' :: ws))) as [c|]; [|done].
    simpl in *. destruct (is_blank c) eqn:Hb; [|done].
    apply blank_isspace in Hb. congruence.
Qed.

End SplitJoin.

(** ** Normalized exercise names *)

(** The normal form is already normalized. *)
Lemma normalize_words_fixed ws :
  Forall (λ w, PyStr.is_word w = true) ws →
  Forall (λ w, PyStr.all_chars (λ c, negb (PyStr.isupper c)) w = true) ws →
  normalize_exercise_name (PyStr.join " " ws) = PyStr.join " " ws.
Proof.
  intros Hws Hlow. unfold normalize_exercise_name.
  rewrite PyStrFacts.lower_fixed.
  - by rewrite SplitJoin.split_join.
  - by apply SplitJoin.join_all_chars.
Qed.

Lemma normalize_idempotent s :
  normalize_exercise_name (normalize_exercise_name s)
  = normalize_exercise_name s.
Proof.
  apply normalize_words_fixed.
  - apply SplitJoin.split_words.
  - apply SplitJoin.split_all_chars, PyStrFacts.lower_all_not_upper.
Qed.

(** C10. [normalize_exercise_name] is idempotent, and its output has no
    uppercase character, neither starts nor ends with a whitespace
    character, and never has two space characters in a row. *)
Theorem normalize_exercise_name_normal_form (s : string) :
  let out := normalize_exercise_name s in
  normalize_exercise_name out = out
  ∧ PyStr.all_chars (λ c, negb (PyStr.isupper c)) out = true
  ∧ from_option PyStr.isspace false (PyStr.first_char out) = false
  ∧ from_option PyStr.isspace false (PyStr.last_char out) = false
  ∧ PyStr.no_double_space out = true.
Proof.
  simpl. pose proof (SplitJoin.split_words (PyStr.lower s)) as Hw.
  split; [apply normalize_idempotent|].
  unfold normalize_exercise_name. split.
  { apply SplitJoin.join_all_chars; [done|].
    apply SplitJoin.split_all_chars, PyStrFacts.lower_all_not_upper. }
  split; [by apply SplitJoin.join_first_not_space|].
  split; [by apply SplitJoin.join_last_not_space|].
  by apply SplitJoin.join_no_double_space.
Qed.

Example normalize_bench :
  normalize_exercise_name "  Bench   PRESS " = "bench press".
Proof. reflexivity. Qed.

(** ** The registry: refused registrations and deletions *)

Lemma existsb_has_name name users :
  existsb (has_name name) users = true ↔ name ∈ names users.
Proof.
  unfold names. rewrite existsb_exists, list_elem_of_fmap.
  split.
  - intros (u & Hin & Hu). exists u. split; [|by apply list_elem_of_In].
    unfold has_name in Hu. by apply bool_decide_eq_true in Hu.
  - intros (u & -> & Hu). exists u. split; [by apply list_elem_of_In|].
    unfold has_name. by apply bool_decide_eq_true.
Qed.

Lemma load_users_ok s users :
  users_file s = Some (Users users) → load_users s = (Ok users, s).
Proof. unfold load_users, bind, get. simpl. by intros ->. Qed.

Lemma find_has_name_unique users u :
  NoDup (names users) → u ∈ users →
  find (has_name (u_name u)) users = Some u.
Proof.
  induction users as [|v users IH]; simpl; [by intros _ ?%elem_of_nil|].
  intros [Hv Hnd]%NoDup_cons [->|Hu]%elem_of_cons.
  - unfold has_name. by rewrite bool_decide_eq_true_2.
  - unfold has_name at 1. rewrite bool_decide_eq_false_2; [by apply IH|].
    intros Heq. apply Hv. rewrite Heq. unfold names.
    by apply list_elem_of_fmap_2.
Qed.

Lemma save_user_refuses s users name protection_code now :
  users_file s = Some (Users users) →
  name ∈ names users →
  save_user name protection_code now s
  = (Ok (false, Text "User already exists"), s).
Proof.
  intros Hreg Hin. unfold save_user, bind.
  rewrite (load_users_ok _ _ Hreg).
  by rewrite (proj2 (existsb_has_name name users) Hin).
Qed.

(** C5. Registering a name that is already in the registry returns the
    failure "User already exists" and leaves the whole data directory
    (registry file, every per-user file) as it was. *)
Theorem save_user_existing_name_fails (s : fs) (users : list user)
    (name protection_code now : string) :
  users_file s = Some (Users users) →
  name ∈ names users →
  save_user name protection_code now s
  = (Ok (false, Text "User already exists"), s).
Proof.
  intros Hreg Hin. unfold save_user, bind.
  rewrite (load_users_ok _ _ Hreg).
  apply existsb_has_name in Hin. by rewrite Hin.
Qed.

Lemma save_user_existing_name_fails_witness :
  let s := (save_user "alice" "4711" "2024-05-01T10:00:00" fresh).2 in
  save_user "alice" "0042" "2024-05-02T09:30:00" s
  = (Ok (false, Text "User already exists"), s).
Proof.
  intros s.
  apply (save_user_existing_name_fails s
           [User 1 "alice" "2024-05-01T10:00:00" (Some "4711")]).
  - reflexivity.
  - vm_compute. apply list_elem_of_here.
Defined.

(** C4. For a user [u] of a registry with unique names and a non-empty
    entered code different from the stored one, [delete_user] returns a
    failure and changes nothing: the user stays in the registry, the user
    directory stays in place, no backup folder and no archive folder is
    created. *)
Theorem delete_user_wrong_code_fails (s : fs) (users : list user) (u : user)
    (protection_code backup_stamp archive_stamp : string) :
  users_file s = Some (Users users) →
  NoDup (names users) →
  u ∈ users →
  protection_code ≠ "" →
  Some protection_code ≠ u_protection_code u →
  delete_user (u_name u) protection_code backup_stamp archive_stamp s
  = (Ok (false, Text "Incorrect protection code"), s).
Proof.
  intros Hreg Hnd Hu Hne Hcode. unfold delete_user, bind.
  rewrite (load_users_ok _ _ Hreg).
  rewrite (find_has_name_unique _ _ Hnd Hu).
  rewrite bool_decide_eq_false_2 by done.
  by rewrite bool_decide_eq_true_2 by done.
Qed.

Lemma delete_user_wrong_code_fails_witness :
  let s := (save_user "alice" "4711" "2024-05-01T10:00:00" fresh).2 in
  delete_user "alice" "0000" "20240502_093000" "20240502_093000" s
  = (Ok (false, Text "Incorrect protection code"), s).
Proof.
  intros s.
  apply (delete_user_wrong_code_fails s
           [User 1 "alice" "2024-05-01T10:00:00" (Some "4711")]
           (User 1 "alice" "2024-05-01T10:00:00" (Some "4711"))).
  - reflexivity.
  - vm_compute. apply NoDup_cons. split; [apply not_elem_of_nil|apply NoDup_nil_2].
  - apply list_elem_of_here.
  - discriminate.
  - discriminate.
Defined.

(** ** Restoring: the two refusals *)

(** An active user who was never deleted: the answer is "No archive
    found", not "already exists". *)
Lemma restore_user_active_no_archive :
  let s := (save_user "alice" "4711" "2024-05-01T10:00:00" fresh).2 in
  active "alice" s
  ∧ restore_user "alice" "2024-05-02T09:30:00" s
    = (Ok (false, Text "No archive found for alice"), s)
  ∧ restore_user "alice" "2024-05-02T09:30:00" s
    ≠ (Ok (false, Text "User alice already exists"), s).
Proof.
  intros s. split; [|split].
  - exists [User 1 "alice" "2024-05-01T10:00:00" (Some "4711")].
    split; [reflexivity|]. vm_compute. apply list_elem_of_here.
  - reflexivity.
  - vm_compute. discriminate.
Qed.

Lemma restore_user_no_archive s username now :
  user_archives username s = [] →
  restore_user username now s
  = (Ok (false, Text ("No archive found for " +:+ username)), s).
Proof.
  intros Hnone. unfold restore_user, bind, get. simpl.
  by rewrite bool_decide_eq_true_2.
Qed.

Lemma restore_user_already_active s users username now :
  user_archives username s ≠ [] →
  users_file s = Some (Users users) →
  username ∈ names users →
  restore_user username now s
  = (Ok (false, Text ("User " +:+ username +:+ " already exists")), s).
Proof.
  intros Hsome Hreg Hin. unfold restore_user, bind, get. simpl.
  rewrite bool_decide_eq_false_2 by done.
  rewrite (load_users_ok _ _ Hreg).
  by rewrite (proj2 (existsb_has_name username users) Hin).
Qed.

(** C3 (amended). Without an archive folder for the name the answer is
    "No archive found", whether or not the name is active; with an
    archive folder and the name active it is "User ... already exists".
    Neither refusal changes the data directory. *)
Theorem restore_user_refusals (s : fs) (username now : string) :
  (user_archives username s = [] →
   restore_user username now s
   = (Ok (false, Text ("No archive found for " +:+ username)), s))
  ∧ (user_archives username s ≠ [] → active username s →
     restore_user username now s
     = (Ok (false, Text ("User " +:+ username +:+ " already exists")), s)).
Proof.
  split.
  - apply restore_user_no_archive.
  - intros Hsome (users & Hreg & Hin). by eapply restore_user_already_active.
Qed.

Lemma restore_user_refusals_witness :
  let s1 := fresh in
  let s2 :=
    Fs (Some (Users [User 1 "alice" "2024-05-01T10:00:00" (Some "4711")]))
       {["alice" := two_files]}
       {["alice_20240401_080000" := two_files]} ∅ in
  restore_user "bob" "2024-05-02T09:30:00" s1
  = (Ok (false, Text "No archive found for bob"), s1)
  ∧ restore_user "alice" "2024-05-02T09:30:00" s2
    = (Ok (false, Text "User alice already exists"), s2).
Proof.
  intros s1 s2. split.
  - apply (proj1 (restore_user_refusals s1 "bob" "2024-05-02T09:30:00")).
    reflexivity.
  - apply (proj2 (restore_user_refusals s2 "alice" "2024-05-02T09:30:00")).
    + vm_compute. discriminate.
    + exists [User 1 "alice" "2024-05-01T10:00:00" (Some "4711")].
      split; [reflexivity|]. vm_compute. apply list_elem_of_here.
Defined.

(** ** The exercise catalog: upsert *)

Section Upsert.
Variables (key muscle_group : string).
Hypothesis key_normal : normalize_exercise_name key = key.

Lemma replace_first_none catalog :
  filter (has_key key) catalog = [] →
  replace_first key muscle_group catalog = None.
Proof.
  induction catalog as [|ex rest IH]; simpl; [done|].
  rewrite filter_cons. unfold has_key at 1. case_decide as Hk; [done|].
  intros Hrest. rewrite bool_decide_eq_false_2 by done.
  by rewrite IH.
Qed.

Lemma replace_first_some catalog ex others :
  filter (has_key key) catalog = ex :: others →
  ∃ catalog',
    replace_first key muscle_group catalog = Some catalog'
    ∧ filter (has_key key) catalog'
      = Exercise key muscle_group (ex_created_at ex) :: others.
Proof.
  induction catalog as [|e rest IH]; simpl; [done|].
  rewrite filter_cons. unfold has_key at 1. case_decide as Hk.
  - intros [= -> <-]. rewrite bool_decide_eq_true_2 by done.
    eexists; split; [done|]. rewrite filter_cons.
    unfold has_key at 1. simpl. by rewrite decide_True.
  - intros Hrest. rewrite bool_decide_eq_false_2 by done.
    destruct (IH Hrest) as (catalog' & -> & Hf).
    eexists; split; [done|]. rewrite filter_cons.
    unfold has_key at 1. by rewrite decide_False.
Qed.

Lemma filter_append_new catalog now :
  filter (has_key key) catalog = [] →
  filter (has_key key) (catalog ++ [Exercise key muscle_group now])
  = [Exercise key muscle_group now].
Proof.
  intros Hnone. rewrite filter_app, Hnone. simpl.
  rewrite filter_cons. unfold has_key at 1. simpl.
  by rewrite decide_True.
Qed.
End Upsert.

Lemma upsert_filter name muscle_group now catalog :
  let key := normalize_exercise_name name in
  filter (has_key key) (upsert name muscle_group now catalog)
  = match filter (has_key key) catalog with
    | [] => [Exercise key muscle_group now]
    | ex :: others => Exercise key muscle_group (ex_created_at ex) :: others
    end.
Proof.
  intros key. unfold upsert. fold key.
  destruct (filter (has_key key) catalog) as [|ex others] eqn:Hf.
  - rewrite replace_first_none by done.
    apply filter_append_new; [apply normalize_idempotent|done].
  - destruct (replace_first_some key muscle_group
                (normalize_idempotent name) catalog ex others Hf)
      as (catalog' & -> & Hf').
    exact Hf'.
Qed.

(** What the per-user loads and writes do to the state. *)
Lemma load_exercises_unfold username s :
  load_exercises username s
  = (match parse_json (lookup_path (username, "exercises.json") s) with
     | Ok (Exercises l) => Ok l
     | Ok _ => Raise KeyError
     | Raise e => Raise e
     end, s).
Proof.
  unfold load_exercises, read_json, bind, get, lift. simpl.
  destruct (parse_json _) as [[]|]; done.
Qed.

Lemma load_workouts_unfold username s :
  load_workouts username s
  = (match parse_json (lookup_path (username, "workouts.json") s) with
     | Ok (Workouts l) => Ok l
     | Ok _ => Raise KeyError
     | Raise e => Raise e
     end, s).
Proof.
  unfold load_workouts, read_json, bind, get, lift. simpl.
  destruct (parse_json _) as [[]|]; done.
Qed.

Lemma parse_json_ok n c :
  parse_json n = Ok c ↔ n = Some (File c) ∧ c ≠ Corrupt.
Proof.
  split.
  - destruct n as [[[]|]|]; simpl; intros [= <-]; done.
  - intros [-> Hc]. by destruct c.
Qed.

Lemma load_exercises_ok username s catalog :
  load_exercises username s = (Ok catalog, s)
  ↔ lookup_path (username, "exercises.json") s = Some (File (Exercises catalog)).
Proof.
  rewrite load_exercises_unfold. split.
  - destruct (parse_json _) as [c|] eqn:Hp; [|done].
    apply parse_json_ok in Hp as [-> _]. by destruct c; intros [= ->].
  - by intros ->.
Qed.

Lemma load_workouts_ok username s log :
  load_workouts username s = (Ok log, s)
  ↔ lookup_path (username, "workouts.json") s = Some (File (Workouts log)).
Proof.
  rewrite load_workouts_unfold. split.
  - destruct (parse_json _) as [c|] eqn:Hp; [|done].
    apply parse_json_ok in Hp as [-> _]. by destruct c; intros [= ->].
  - by intros ->.
Qed.

Lemma lookup_path_Some p s n :
  lookup_path p s = Some n ↔
  ∃ d, user_dirs s !! p.1 = Some d ∧ d !! p.2 = Some n.
Proof.
  unfold lookup_path. destruct (user_dirs s !! p.1) as [d|]; simpl.
  - split; [by exists d|]. by intros (d' & [= <-] & ?).
  - split; [done|]. by intros (d' & ? & ?).
Qed.

(** Overwriting an existing plain file succeeds. *)
Lemma write_json_over_file p c s d old :
  user_dirs s !! p.1 = Some d → d !! p.2 = Some (File old) →
  write_json p c s
  = (Ok tt, set_user_dirs (<[p.1 := <[p.2 := File c]> d]> (user_dirs s)) s).
Proof. intros Hd Hf. unfold write_json, bind, get, modify. by rewrite Hd, Hf. Qed.

Lemma lookup_path_written p c s d :
  lookup_path p (set_user_dirs (<[p.1 := <[p.2 := File c]> d]> (user_dirs s)) s)
  = Some (File c).
Proof.
  unfold lookup_path. simpl. rewrite lookup_insert_eq. simpl.
  by rewrite lookup_insert_eq.
Qed.

Lemma save_exercise_run name muscle_group username now s catalog :
  load_exercises username s = (Ok catalog, s) →
  ∃ s', save_exercise name muscle_group username now s = (Ok tt, s')
        ∧ load_exercises username s'
          = (Ok (upsert name muscle_group now catalog), s').
Proof.
  intros Hload. unfold save_exercise, bind. rewrite Hload.
  apply load_exercises_ok, lookup_path_Some in Hload as (d & Hd & Hf).
  fold (upsert name muscle_group now catalog).
  erewrite (write_json_over_file (username, "exercises.json")); [|done..].
  eexists; split; [done|].
  apply load_exercises_ok, lookup_path_written.
Qed.

(** C6. On a catalog with at most one entry under the normalized name,
    two upserts under names with that normal form, first with [g1] then
    with [g2], leave exactly one catalog entry with that normalized name;
    it carries [g2] and the creation time of the entry's first insertion:
    that of the entry already stored under the name, or else the clock
    reading of the first of the two calls. *)
Theorem save_exercise_twice_one_entry (s : fs)
    (username name1 name2 g1 g2 now1 now2 : string) (catalog : list exercise) :
  let key := normalize_exercise_name name1 in
  normalize_exercise_name name2 = key →
  load_exercises username s = (Ok catalog, s) →
  length (filter (has_key key) catalog) ≤ 1 →
  ∃ s1 s2 catalog',
    save_exercise name1 g1 username now1 s = (Ok tt, s1)
    ∧ save_exercise name2 g2 username now2 s1 = (Ok tt, s2)
    ∧ load_exercises username s2 = (Ok catalog', s2)
    ∧ filter (has_key key) catalog'
      = [Exercise key g2
           (from_option ex_created_at now1 (head (filter (has_key key) catalog)))].
Proof.
  intros key Hkey Hload Hone.
  destruct (save_exercise_run name1 g1 username now1 s catalog Hload)
    as (s1 & Hrun1 & Hload1).
  destruct (save_exercise_run name2 g2 username now2 s1 _ Hload1)
    as (s2 & Hrun2 & Hload2).
  exists s1, s2, (upsert name2 g2 now2 (upsert name1 g1 now1 catalog)).
  split; [done|]. split; [done|]. split; [done|].
  pose proof (upsert_filter name2 g2 now2 (upsert name1 g1 now1 catalog)) as H2.
  simpl in H2. rewrite Hkey in H2. rewrite H2.
  pose proof (upsert_filter name1 g1 now1 catalog) as H1.
  simpl in H1. fold key in H1. rewrite H1.
  destruct (filter (has_key key) catalog) as [|ex [|ex' others]]; simpl in *;
    [done|done|lia].
Qed.

Lemma save_exercise_twice_one_entry_witness :
  let s := (save_user "alice" "4711" "2024-05-01T10:00:00" fresh).2 in
  ∃ s1 s2 catalog',
    save_exercise "Bench  Press" "Arms" "alice" "2024-05-01T10:05:00" s = (Ok tt, s1)
    ∧ save_exercise " bench press" "Chest" "alice" "2024-05-03T18:00:00" s1 = (Ok tt, s2)
    ∧ load_exercises "alice" s2 = (Ok catalog', s2)
    ∧ filter (has_key "bench press") catalog'
      = [Exercise "bench press" "Chest" "2024-05-01T10:05:00"].
Proof.
  intros s.
  apply (save_exercise_twice_one_entry s "alice" "Bench  Press" " bench press"
           "Arms" "Chest" "2024-05-01T10:05:00" "2024-05-03T18:00:00" []).
  - reflexivity.
  - reflexivity.
  - simpl. lia.
Defined.

(** ** Effects of the storage primitives *)

Lemma set_user_dirs_id s : set_user_dirs (user_dirs s) s = s.
Proof. by destruct s. Qed.

Lemma bind_ok {A B} (m : M A) (k : A → M B) s a s' :
  m s = (Ok a, s') → bind m k s = k a s'.
Proof. unfold bind. by intros ->. Qed.

Lemma bind_raise {A B} (m : M A) (k : A → M B) s e s' :
  m s = (Raise e, s') → bind m k s = (Raise e, s').
Proof. unfold bind. by intros ->. Qed.

(** One round of the loop of [init_user_storage]. *)
Lemma ensure_file_run username fname c s d :
  user_dirs s !! username = Some d →
  (s0 <- get ;;
   if exists_path (username, fname) s0 then ret tt
   else write_json (username, fname) c) s
  = (Ok tt,
     set_user_dirs
       (<[username := match d !! fname with
                      | Some _ => d
                      | None => <[fname := File c]> d
                      end]> (user_dirs s)) s).
Proof.
  intros Hd. unfold bind, get, exists_path, lookup_path, write_json. simpl.
  rewrite Hd. simpl. destruct (d !! fname) as [n|] eqn:Hf; simpl.
  - unfold ret. rewrite insert_id by done. by rewrite set_user_dirs_id.
  - unfold bind, get, modify. by rewrite Hd, Hf.
Qed.

Lemma init_user_storage_run username s :
  init_user_storage username s
  = (Ok tt,
     set_user_dirs
       (<[username := with_defaults (default ∅ (user_dirs s !! username))]>
          (user_dirs s)) s).
Proof.
  unfold init_user_storage, get_user_files, get_user_data_path. simpl.
  set (d := default ∅ (user_dirs s !! username)).
  set (s1 := set_user_dirs (<[username := d]> (user_dirs s)) s).
  assert (user_dirs s1 !! username = Some d) as Hd1.
  { unfold s1. simpl. apply lookup_insert_eq. }
  erewrite (bind_ok _ _ s tt s1).
  2:{ unfold bind, get, exists_dir, ret, modify. simpl. unfold s1, d.
      destruct (user_dirs s !! username) as [d0|] eqn:Hd; simpl; [|done].
      rewrite insert_id by done. by rewrite set_user_dirs_id. }
  erewrite bind_ok; [|by apply ensure_file_run].
  erewrite bind_ok.
  2:{ apply ensure_file_run. simpl. apply lookup_insert_eq. }
  unfold ret, with_defaults, s1. simpl. by rewrite !insert_insert_eq.
Qed.

(** ** Directory listings and the latest archive *)

Lemma elem_of_listdir {A} (m : gmap string A) k :
  k ∈ listdir m ↔ is_Some (m !! k).
Proof.
  unfold listdir. rewrite list_elem_of_fmap. split.
  - intros ([k' x] & -> & Hin). apply elem_of_map_to_list in Hin. by exists x.
  - intros [x Hx]. exists (k, x). split; [done|]. by apply elem_of_map_to_list.
Qed.

Lemma elem_of_user_archives username s d :
  d ∈ user_archives username s
  ↔ PyStr.startswith (username +:+ "_") d = true ∧ is_Some (archive s !! d).
Proof. unfold user_archives. by rewrite list_elem_of_filter, elem_of_listdir. Qed.

Lemma sorted_elem_of l x : x ∈ sorted l ↔ x ∈ l.
Proof. unfold sorted. by rewrite merge_sort_Permutation. Qed.

Lemma strongly_sorted_last_max (l : list string) x :
  StronglySorted String.le l → last l = Some x →
  ∀ y, y ∈ l → String.le y x.
Proof.
  induction 1 as [|z l Hl IH Hz]; [done|].
  destruct l as [|z' l'].
  - intros [= <-] y ->%list_elem_of_singleton. done.
  - rewrite last_cons_cons. intros Hlast y [->|Hy]%elem_of_cons.
    + eapply Forall_forall; [exact Hz|]. by eapply last_Some_elem_of.
    + by apply IH.
Qed.

(** [sorted(l)[-1]] is an element of [l] and at least every element. *)
Lemma latest_spec l :
  l ≠ [] →
  let latest := default "" (last (sorted l)) in
  latest ∈ l ∧ ∀ d, d ∈ l → String.le d latest.
Proof.
  intros Hne. simpl.
  destruct (last (sorted l)) as [x|] eqn:Hlast; simpl.
  - split.
    + apply sorted_elem_of. by eapply last_Some_elem_of.
    + intros d Hd. eapply strongly_sorted_last_max; [|exact Hlast|].
      * apply StronglySorted_merge_sort; apply _.
      * by apply sorted_elem_of.
  - apply last_None in Hlast. destruct l as [|y l]; [done|].
    assert (y ∈ sorted (y :: l)) as Hy by (apply sorted_elem_of; left).
    rewrite Hlast in Hy. by apply elem_of_nil in Hy.
Qed.

(** ** Effects of registering and restoring *)

Lemma not_existsb_has_name name users :
  name ∉ names users → existsb (has_name name) users = false.
Proof.
  intros Hnot. destruct (existsb _ _) eqn:He; [|done].
  by apply existsb_has_name in He.
Qed.

Lemma save_user_run s users name protection_code now :
  users_file s = Some (Users users) →
  name ∉ names users →
  ∃ msg,
    save_user name protection_code now s
    = (Ok (true, msg),
       Fs (Some (Users (users ++ [User (length users + 1) name now
                                       (Some protection_code)])))
          (<[name := with_defaults (default ∅ (user_dirs s !! name))]> (user_dirs s))
          (archive s) (backups s)).
Proof.
  intros Hreg Hnot. eexists. unfold save_user.
  erewrite bind_ok; [|by apply load_users_ok].
  rewrite not_existsb_has_name by done.
  erewrite bind_ok; [|reflexivity].
  erewrite bind_ok; [|apply init_user_storage_run].
  reflexivity.
Qed.

Lemma restore_user_run s users username now :
  user_archives username s ≠ [] →
  users_file s = Some (Users users) →
  username ∉ names users →
  let latest := default "" (last (sorted (user_archives username s))) in
  ∃ a,
    archive s !! latest = Some a
    ∧ restore_user username now s
      = (Ok (true, Text ("Restored user: " +:+ username)),
         Fs (Some (Users (users ++ [User (length users + 1) username now None])))
            (<[username := a]> (user_dirs s))
            (delete latest (archive s)) (backups s)).
Proof.
  intros Hne Hreg Hnot latest.
  destruct (latest_spec _ Hne) as [Hin _]. fold latest in Hin.
  apply elem_of_user_archives in Hin as [_ [a Ha]].
  exists a. split; [done|].
  unfold restore_user. erewrite bind_ok; [|reflexivity].
  rewrite bool_decide_eq_false_2 by done. fold latest.
  erewrite bind_ok; [|by apply load_users_ok].
  rewrite not_existsb_has_name by done.
  unfold try_except.
  erewrite bind_ok; [|reflexivity].
  erewrite bind_ok; [|apply init_user_storage_run].
  erewrite bind_ok.
  2:{ unfold bind, get, exists_dir, get_user_data_path. simpl.
      rewrite lookup_insert_eq. simpl. reflexivity. }
  erewrite bind_ok.
  2:{ unfold copytree_from_archive, bind, get, exists_dir, get_user_data_path.
      simpl. rewrite Ha. rewrite lookup_delete_eq. simpl. reflexivity. }
  erewrite bind_ok; [|reflexivity].
  unfold ret. simpl. f_equal. f_equal.
  by rewrite insert_delete_eq, insert_insert_eq.
Qed.

(** ** What a backup may touch *)

Section KeepsStore.
Context {A B : Type}.

Lemma keeps_ret (a : A) : keeps_store (ret a).
Proof. by intros s. Qed.

Lemma keeps_raise e : keeps_store (@raise A e).
Proof. by intros s. Qed.

Lemma keeps_get : keeps_store get.
Proof. by intros s. Qed.

Lemma keeps_load_users : keeps_store load_users.
Proof.
  intros s. unfold load_users, bind, get, raise, ret. simpl.
  by destruct (users_file s) as [[]|] eqn:E.
Qed.

Lemma keeps_set_backups (f : fs → gmap string directory) :
  keeps_store (modify (λ s, set_backups (f s) s)).
Proof. by intros s. Qed.

Lemma keeps_bind (m : M A) (k : A → M B) :
  keeps_store m → (∀ a, keeps_store (k a)) → keeps_store (bind m k).
Proof.
  intros Hm Hk s. unfold bind. specialize (Hm s).
  destruct (m s) as [[a|e] s1]; simpl in *; [|done].
  destruct (Hk a s1) as (-> & -> & ->). done.
Qed.

Lemma keeps_for_each (l : list A) (body : A → M unit) :
  (∀ x, keeps_store (body x)) → keeps_store (for_each l body).
Proof.
  intros Hbody. induction l as [|x l IH]; simpl.
  - by intros s.
  - intros s. unfold bind. specialize (Hbody x s).
    destruct (body x s) as [[[]|e] s1]; simpl in *; [|done].
    destruct (IH s1) as (-> & -> & ->). done.
Qed.
End KeepsStore.

Ltac keeps_step :=
  first
    [ apply keeps_ret | apply keeps_raise | apply keeps_get
    | apply keeps_load_users
    | apply (keeps_set_backups (λ _, _))
    | apply keeps_set_backups
    | apply keeps_for_each; intros ?
    | apply keeps_bind; [|intros ?]
    | case_match ].

Lemma copytree_to_backup_keeps src backup_path username :
  keeps_store (copytree_to_backup src backup_path username).
Proof. unfold copytree_to_backup. repeat keeps_step. Qed.

Lemma copy2_users_file_keeps backup_path :
  keeps_store (copy2_users_file backup_path).
Proof. unfold copy2_users_file. repeat keeps_step. Qed.

Lemma create_backup_keeps timestamp : keeps_store (create_backup timestamp).
Proof.
  unfold create_backup.
  repeat first
    [ apply copy2_users_file_keeps | apply copytree_to_backup_keeps | keeps_step ].
Qed.

(** ** Effect of a deletion *)

Lemma find_has_name_Some name users u :
  find (has_name name) users = Some u → name ∈ names users.
Proof.
  intros Hf. apply find_some in Hf as [Hin Hn].
  apply existsb_has_name, existsb_exists. by exists u.
Qed.

(** When the archive folder name is not taken yet, a deletion either
    leaves registry, user directories and archive as they were (it was
    refused, or the backup raised), or it removes the user from the
    registry and moves the user directory into the archive. *)
Lemma delete_user_effect s users name protection_code backup_stamp archive_stamp :
  users_file s = Some (Users users) →
  archive s !! (name +:+ "_" +:+ archive_stamp) = None →
  let s' := (delete_user name protection_code backup_stamp archive_stamp s).2 in
  (users_file s' = users_file s ∧ user_dirs s' = user_dirs s
   ∧ archive s' = archive s)
  ∨ (name ∈ names users
     ∧ users_file s' = Some (Users (filter (λ u, u_name u ≠ name) users))
     ∧ user_dirs s' = delete name (user_dirs s)
     ∧ archive s' = match user_dirs s !! name with
                    | Some d => <[name +:+ "_" +:+ archive_stamp := d]> (archive s)
                    | None => archive s
                    end).
Proof.
  intros Hreg Hfresh. simpl. unfold delete_user.
  erewrite bind_ok; [|by apply load_users_ok].
  destruct (find (has_name name) users) as [user|] eqn:Hfind; [|by left].
  destruct (bool_decide (protection_code = "")); [by left|].
  destruct (bool_decide (Some protection_code ≠ u_protection_code user));
    [by left|].
  destruct (create_backup_keeps backup_stamp s) as (Hu & Hd & Ha).
  destruct (create_backup backup_stamp s) as [[[]|e] s1] eqn:Hb; simpl in *.
  2:{ left. erewrite bind_raise by exact Hb. done. }
  right. split; [by eapply find_has_name_Some|].
  erewrite bind_ok by exact Hb.
  erewrite bind_ok; [|reflexivity].
  unfold get_user_data_path.
  destruct (user_dirs s !! name) as [d|] eqn:Hdir.
  - erewrite bind_ok.
    2:{ unfold bind, get, exists_dir, move_to_archive. simpl.
        rewrite Hd, Hdir. simpl. unfold bind, get. simpl.
        rewrite Hd, Hdir, Ha, Hfresh. reflexivity. }
    simpl. by rewrite Hd, Ha.
  - erewrite bind_ok.
    2:{ unfold bind, get, exists_dir. simpl. rewrite Hd, Hdir. reflexivity. }
    simpl. rewrite Hd, Ha. by rewrite delete_id.
Qed.

(** ** The lifecycle invariant *)

Lemma inv_frame s s' users :
  lifecycle_inv s users →
  users_file s' = users_file s → user_dirs s' = user_dirs s →
  archive s' = archive s →
  lifecycle_inv s' users.
Proof.
  intros [Hr Hd Hu Ha] Er Ed Ea. split.
  - by rewrite Er.
  - intros n. by rewrite Ed.
  - intros n d. rewrite Ed. apply Hu.
  - intros k a. rewrite Ea. apply Ha.
Qed.

Lemma has_files_with_defaults_empty : has_files (with_defaults ∅).
Proof. split; eexists; reflexivity. Qed.

Lemma names_snoc users u : names (users ++ [u]) = names users ++ [u_name u].
Proof. unfold names. by rewrite fmap_app. Qed.

Lemma names_filter_ne users name n :
  n ∈ names (filter (λ u, u_name u ≠ name) users) ↔ n ∈ names users ∧ n ≠ name.
Proof.
  unfold names. rewrite !list_elem_of_fmap. split.
  - intros (u & -> & [Hne Hin]%list_elem_of_filter). eauto.
  - intros [(u & -> & Hin) Hne]. exists u. split; [done|].
    by apply list_elem_of_filter.
Qed.

Lemma fresh_eq : fresh = Fs (Some (Users [])) ∅ ∅ ∅.
Proof. reflexivity. Qed.

Lemma inv_fresh : lifecycle_inv fresh [].
Proof.
  rewrite fresh_eq. split; simpl.
  - reflexivity.
  - intros n. split; [by intros ?%elem_of_nil|].
    intros [d Hd]. by rewrite lookup_empty in Hd.
  - intros n d Hd. by rewrite lookup_empty in Hd.
  - intros k a Ha. by rewrite lookup_empty in Ha.
Qed.

Lemma inv_register s users name protection_code now :
  lifecycle_inv s users →
  ∃ users', lifecycle_inv (step (Register name protection_code now) s) users'.
Proof.
  intros Hinv. pose proof Hinv as [Hr Hd Hu Ha]. simpl.
  destruct (decide (name ∈ names users)) as [Hin|Hnot].
  - exists users. by rewrite (save_user_refuses _ _ _ _ _ Hr Hin).
  - destruct (save_user_run s users name protection_code now Hr Hnot)
      as (msg & ->).
    eexists. simpl.
    assert (user_dirs s !! name = None) as Hnone.
    { apply eq_None_not_Some. by rewrite <- Hd. }
    rewrite Hnone. split; simpl.
    + done.
    + intros n. rewrite names_snoc, elem_of_app, list_elem_of_singleton. simpl.
      rewrite lookup_insert_is_Some', Hd.
      split; (intros [?|?]; [by right|by left]).
    + intros n d. rewrite lookup_insert.
      case_decide; [intros [= <-]; apply has_files_with_defaults_empty|apply Hu].
    + done.
Qed.

Lemma inv_restore s users username now :
  lifecycle_inv s users →
  ∃ users', lifecycle_inv (step (Restore username now) s) users'.
Proof.
  intros Hinv. pose proof Hinv as [Hr Hd Hu Ha]. simpl.
  destruct (decide (user_archives username s = [])) as [Hnone|Hsome].
  { exists users. by rewrite restore_user_no_archive. }
  destruct (decide (username ∈ names users)) as [Hin|Hnot].
  { exists users. by erewrite restore_user_already_active. }
  destruct (restore_user_run s users username now Hsome Hr Hnot)
    as (a & Hlatest & ->).
  eexists. split; simpl.
  - done.
  - intros n. rewrite names_snoc, elem_of_app, list_elem_of_singleton. simpl.
    rewrite lookup_insert_is_Some', Hd.
    split; (intros [?|?]; [by right|by left]).
  - intros n d. rewrite lookup_insert.
    case_decide; [intros [= <-]; by eapply Ha|apply Hu].
  - intros k a'. rewrite lookup_delete. case_decide; [done|apply Ha].
Qed.

Lemma inv_delete s users name protection_code backup_stamp archive_stamp :
  lifecycle_inv s users →
  archive s !! (name +:+ "_" +:+ archive_stamp) = None →
  ∃ users',
    lifecycle_inv
      (step (Delete name protection_code backup_stamp archive_stamp) s) users'.
Proof.
  intros Hinv Hfresh. pose proof Hinv as [Hr Hd Hu Ha]. simpl.
  destruct (delete_user_effect s users name protection_code backup_stamp
              archive_stamp Hr Hfresh) as [(Er & Ed & Ea)|(Hin & Er & Ed & Ea)].
  - exists users. by eapply inv_frame.
  - eexists. split.
    + exact Er.
    + intros n. rewrite names_filter_ne, Ed, lookup_delete_is_Some, Hd.
      split; intros [? ?]; split; first [done | by apply not_eq_sym].
    + intros n d. rewrite Ed, lookup_delete. case_decide; [done|apply Hu].
    + intros k a. rewrite Ea.
      destruct (user_dirs s !! name) as [d|] eqn:Hdir; [|apply Ha].
      rewrite lookup_insert.
      case_decide; [intros [= <-]; by eapply Hu|apply Ha].
Qed.

Lemma reachable_inv s : reachable s → ∃ users, lifecycle_inv s users.
Proof.
  induction 1 as [|o s Hs [users IH] Hop].
  - exists []. apply inv_fresh.
  - destruct o; simpl in Hop.
    + by eapply inv_register.
    + destruct Hop as [_ Hfresh]. by eapply inv_delete.
    + by eapply inv_restore.
    + done.
Qed.

Lemma store_files_exist_iff username s :
  store_files_exist username s
  ↔ ∃ d, user_dirs s !! username = Some d ∧ has_files d.
Proof.
  unfold store_files_exist, has_files, lookup_path, get_user_files,
    get_user_data_path. simpl.
  destruct (user_dirs s !! username) as [d|]; simpl.
  - split; [by exists d|]. by intros (d' & [= <-] & ?).
  - split; [by intros [[c [=]] _]|]. by intros (d' & [=] & _).
Qed.

Lemma inv_files_iff_active s users :
  lifecycle_inv s users → files_iff_active s.
Proof.
  intros [Hr Hd Hu Ha] username. rewrite store_files_exist_iff. split.
  - intros (d & Hdir & _). exists users. split; [done|].
    apply Hd. by exists d.
  - intros (users' & Hr' & Hin). rewrite Hr in Hr'. injection Hr' as <-.
    apply Hd in Hin as [d Hdir]. exists d. split; [done|]. by eapply Hu.
Qed.

(** After an import of a snapshot taken before a registration, the files
    of the user registered in between are on disk although the registry
    no longer lists the user. *)
Lemma import_breaks_files_iff_active :
  let backup := Snapshot "2024-05-01T09:00:00" [] [] in
  let ops := [Register "alice" "4711" "2024-05-01T10:00:00";
              ImportSnapshot backup] in
  (create_backup_file "2024-05-01T09:00:00" fresh).1 = Ok backup
  ∧ store_files_exist "alice" (run ops fresh)
  ∧ ¬ active "alice" (run ops fresh)
  ∧ ¬ files_iff_active (run ops fresh).
Proof.
  intros backup ops.
  assert (store_files_exist "alice" (run ops fresh)) as Hfiles.
  { split; eexists; reflexivity. }
  assert (¬ active "alice" (run ops fresh)) as Hnot.
  { intros (users & Hr & Hin). vm_compute in Hr. injection Hr as <-.
    by apply elem_of_nil in Hin. }
  split; [reflexivity|]. split; [done|]. split; [done|].
  intros Hiff. apply Hnot, Hiff, Hfiles.
Qed.

(** The side condition on deletions is needed when the clock readings are
    arbitrary: a third deletion of one user under one and the same
    archive stamp makes [shutil.move] raise after the registry has been
    rewritten, and the user directory stays behind. *)
Lemma reused_archive_stamp_breaks_files_iff_active :
  let ops := [Register "alice" "4711" "2024-05-01T10:00:00";
              Delete "alice" "4711" "20240502_093000" "20240502_093005";
              Register "alice" "0815" "2024-05-02T09:31:00";
              Delete "alice" "0815" "20240502_093200" "20240502_093005";
              Register "alice" "1234" "2024-05-02T09:33:00";
              Delete "alice" "1234" "20240502_093400" "20240502_093005"] in
  store_files_exist "alice" (run ops fresh) ∧ ¬ active "alice" (run ops fresh).
Proof.
  intros ops. split.
  - split; eexists; by vm_compute.
  - intros (users & Hr & Hin). vm_compute in Hr. injection Hr as <-.
    by apply elem_of_nil in Hin.
Qed.

(** C9 (amended). After every sequence of register, delete and restore
    operations on plain usernames from a freshly initialized system, in
    which each deletion archives under a folder name not yet taken, the
    per-user exercises and workouts files exist exactly for the names in
    the registry. *)
Theorem lifecycle_files_iff_active (s : fs) :
  reachable s → files_iff_active s.
Proof.
  intros Hreach. destruct (reachable_inv s Hreach) as [users Hinv].
  by eapply inv_files_iff_active.
Qed.

Lemma lifecycle_files_iff_active_witness :
  files_iff_active
    (step (Restore "alice" "2024-05-03T08:00:00")
       (step (Delete "alice" "4711" "20240502_093000" "20240502_093001")
          (step (Register "alice" "4711" "2024-05-01T10:00:00") fresh))).
Proof.
  apply lifecycle_files_iff_active.
  apply reachable_step; [|reflexivity].
  apply reachable_step; [|split; reflexivity].
  apply reachable_step; [|reflexivity].
  apply reachable_fresh.
Defined.

(** ** Restoring an archived user *)

(** A restore that passes both checks succeeds: the name is appended to
    the registry under the id [len(users) + 1], the user directory becomes
    a copy of the last archive folder (in string order) whose name starts
    with [username + "_"], and that folder is removed.  The new registry
    entry has no ["protection_code"] key. *)
Lemma restore_user_restores_latest s users username now :
  user_archives username s ≠ [] →
  users_file s = Some (Users users) →
  username ∉ names users →
  ∃ latest a s',
    PyStr.startswith (username +:+ "_") latest = true
    ∧ (∀ d, d ∈ user_archives username s → String.le d latest)
    ∧ archive s !! latest = Some a
    ∧ restore_user username now s
      = (Ok (true, Text ("Restored user: " +:+ username)), s')
    ∧ users_file s'
      = Some (Users (users ++ [User (length users + 1) username now None]))
    ∧ user_dirs s' !! username = Some a
    ∧ archive s' = delete latest (archive s).
Proof.
  intros Hne Hreg Hnot.
  destruct (latest_spec _ Hne) as [Hin Hmax].
  destruct (restore_user_run s users username now Hne Hreg Hnot)
    as (a & Ha & Hrun).
  apply elem_of_user_archives in Hin as [Hpre _].
  eexists _, a, _. split; [exact Hpre|]. split; [exact Hmax|].
  split; [exact Ha|]. split; [exact Hrun|]. simpl.
  split; [done|]. split; [apply lookup_insert_eq|done].
Qed.

(** C2. Register "bob", delete the account with its code, restore it:
    the restore succeeds and brings the archived files back, but the
    registry entry it writes has no protection code, so that no entered
    code can delete the restored user any more. *)
Theorem restore_user_loses_protection_code :
  let s0 := (save_user "bob" "4711" "2024-05-01T10:00:00" fresh).2 in
  let s1 := (delete_user "bob" "4711" "20240502_093000" "20240502_093000" s0).2 in
  let s2 := (restore_user "bob" "2024-05-03T08:00:00" s1).2 in
  user_archives "bob" s1 = ["bob_20240502_093000"]
  ∧ ¬ active "bob" s1
  ∧ (restore_user "bob" "2024-05-03T08:00:00" s1).1
    = Ok (true, Text "Restored user: bob")
  ∧ users_file s2 = Some (Users [User 1 "bob" "2024-05-03T08:00:00" None])
  ∧ user_dirs s2 !! "bob" = user_dirs s0 !! "bob"
  ∧ archive s2 = ∅
  ∧ ∀ protection_code backup_stamp archive_stamp,
      ∃ msg, delete_user "bob" protection_code backup_stamp archive_stamp s2
             = (Ok (false, msg), s2).
Proof.
  intros s0 s1 s2.
  assert (users_file s2 = Some (Users [User 1 "bob" "2024-05-03T08:00:00" None]))
    as Hreg by (vm_compute; reflexivity).
  split; [by vm_compute|].
  split.
  { intros (users & Hr & Hin). vm_compute in Hr. injection Hr as <-.
    by apply elem_of_nil in Hin. }
  split; [by vm_compute|]. split; [exact Hreg|].
  split; [by vm_compute|]. split; [by vm_compute|].
  intros protection_code backup_stamp archive_stamp.
  unfold delete_user. erewrite bind_ok; [|by apply load_users_ok].
  simpl. destruct (bool_decide (protection_code = "")); [by eexists|].
  by eexists.
Qed.

(** ** Snapshot round trip *)

Section Dict.
Context {V : Type}.
Implicit Types (d : list (string * V)).

Lemma elem_of_dict_set_new k v d : (k, v) ∈ dict_set k v d.
Proof.
  induction d as [|[k' v'] d IH]; simpl; [left|].
  case_bool_decide; [left|by right].
Qed.

Lemma elem_of_dict_set_old k v d k' v' :
  (k', v') ∈ d → k' ≠ k → (k', v') ∈ dict_set k v d.
Proof.
  intros Hin Hne. induction d as [|[k0 v0] d IH]; simpl.
  - by apply elem_of_nil in Hin.
  - apply elem_of_cons in Hin as [[= <- <-]|Hin].
    + rewrite bool_decide_eq_false_2 by done. left.
    + case_bool_decide; right; [done|by apply IH].
Qed.

Lemma elem_of_dict_set_inv k v d k' v' :
  (k', v') ∈ dict_set k v d → (k' = k ∧ v' = v) ∨ (k', v') ∈ d.
Proof.
  induction d as [|[k0 v0] d IH]; simpl.
  - intros [= -> ->]%list_elem_of_singleton. by left.
  - case_bool_decide.
    + intros [[= -> ->]|Hin]%elem_of_cons; [by left|]. right. by right.
    + intros [[= -> ->]|Hin]%elem_of_cons; [right; left|].
      destruct (IH Hin) as [?|?]; [by left|]. right. by right.
Qed.

Lemma dict_set_keys k v d k' :
  k' ∈ (dict_set k v d).*1 → k' = k ∨ k' ∈ d.*1.
Proof.
  intros ([k0 v0] & -> & Hin)%list_elem_of_fmap. simpl.
  apply elem_of_dict_set_inv in Hin as [[-> _]|Hin]; [by left|].
  right. apply list_elem_of_fmap. by exists (k0, v0).
Qed.

Lemma NoDup_dict_set k v d : NoDup d.*1 → NoDup (dict_set k v d).*1.
Proof.
  induction d as [|[k0 v0] d IH]; simpl.
  - intros _. apply NoDup_singleton.
  - intros [Hk0 Hd]%NoDup_cons. case_bool_decide as Hk; simpl.
    + subst k0. by apply NoDup_cons.
    + apply NoDup_cons. split; [|by apply IH].
      intros [->|Hin]%dict_set_keys; done.
Qed.
End Dict.

(** The snapshot holds exactly the readable users of the registry, each
    once, with the documents read from their two files. *)
Lemma collect_user_data_spec users s acc :
  NoDup acc.*1 →
  (∀ k v, (k, v) ∈ acc → read_user_snapshot k s = Ok v) →
  let user_data := collect_user_data users s acc in
  NoDup user_data.*1
  ∧ (∀ k v, (k, v) ∈ user_data → read_user_snapshot k s = Ok v)
  ∧ (∀ k v, (k, v) ∈ acc → (k, v) ∈ user_data)
  ∧ (∀ k v, k ∈ names users → read_user_snapshot k s = Ok v →
            (k, v) ∈ user_data).
Proof.
  revert acc. induction users as [|u users IH]; intros acc Hnd Hacc; simpl.
  - split; [done|]. split; [done|]. split; [done|].
    intros k v Hk. by apply elem_of_nil in Hk.
  - destruct (read_user_snapshot (u_name u) s) as [v0|e] eqn:Hread.
    + destruct (IH (dict_set (u_name u) v0 acc)) as (H1 & H2 & H3 & H4).
      { by apply NoDup_dict_set. }
      { intros k v [[-> ->]|Hin]%elem_of_dict_set_inv; [done|by apply Hacc]. }
      split; [done|]. split; [done|].
      assert (∀ k v, (k, v) ∈ acc → (k, v) ∈ dict_set (u_name u) v0 acc) as Hkeep.
      { intros k v Hin. destruct (decide (k = u_name u)) as [->|Hne].
        - apply Hacc in Hin. rewrite Hread in Hin. injection Hin as ->.
          apply elem_of_dict_set_new.
        - by apply elem_of_dict_set_old. }
      split; [by intros k v Hin; apply H3, Hkeep|].
      intros k v [->|Hk]%elem_of_cons Hv; [|by apply H4].
      rewrite Hread in Hv. injection Hv as ->.
      apply H3, elem_of_dict_set_new.
    + destruct (IH acc Hnd Hacc) as (H1 & H2 & H3 & H4).
      split; [done|]. split; [done|]. split; [done|].
      intros k v [->|Hk]%elem_of_cons Hv; [congruence|by apply H4].
Qed.

Lemma collect_user_data_keys users s acc k v :
  (k, v) ∈ collect_user_data users s acc → k ∈ names users ∨ (k, v) ∈ acc.
Proof.
  revert acc. induction users as [|u us IH]; intros acc; simpl; [by right|].
  destruct (read_user_snapshot (u_name u) s).
  - intros Hin. apply IH in Hin as [Hk|Hin]; [left; by right|].
    apply elem_of_dict_set_inv in Hin as [[-> _]|Hin]; [left; left|by right].
  - intros Hin. apply IH in Hin as [Hk|Hin]; [left; by right|by right].
Qed.

Lemma write_json_run p c s d :
  user_dirs s !! p.1 = Some d → not_dir (d !! p.2) →
  write_json p c s
  = (Ok tt, set_user_dirs (<[p.1 := <[p.2 := File c]> d]> (user_dirs s)) s).
Proof.
  intros Hd Hf. unfold write_json, bind, get, modify. rewrite Hd.
  destruct (d !! p.2) as [[|entries]|] eqn:Hn; [done| |done].
  by destruct (Hf entries).
Qed.

Lemma with_defaults_not_dir d :
  not_dir (d !! "exercises.json") → not_dir (d !! "workouts.json") →
  not_dir (with_defaults d !! "exercises.json")
  ∧ not_dir (with_defaults d !! "workouts.json").
Proof.
  unfold not_dir, with_defaults. intros Hex Hwk.
  destruct (d !! "exercises.json") as [n|] eqn:Hn;
    [|rewrite lookup_insert_ne by done];
    destruct (d !! "workouts.json") as [n'|] eqn:Hn';
    repeat (rewrite ?lookup_insert_eq, ?Hn, ?Hn';
            try rewrite lookup_insert_ne by done);
    split; first [done | by intros entries].
Qed.

Lemma import_one_run username v s :
  writable username s →
  import_one (username, v) s
  = (Ok tt,
     set_user_dirs
       (<[username := imported v (default ∅ (user_dirs s !! username))]>
          (user_dirs s)) s).
Proof.
  intros Hw. unfold import_one, get_user_files, get_user_data_path. simpl.
  set (d := default ∅ (user_dirs s !! username)).
  assert (not_dir (d !! "exercises.json") ∧ not_dir (d !! "workouts.json"))
    as [Hex Hwk].
  { unfold d. destruct (user_dirs s !! username) as [d0|] eqn:Hd; simpl.
    - by apply Hw.
    - rewrite !lookup_empty. unfold not_dir. split; by intros entries. }
  destruct (with_defaults_not_dir d Hex Hwk) as [Hex' Hwk'].
  erewrite bind_ok; [|apply init_user_storage_run]. fold d.
  erewrite bind_ok.
  2:{ apply (write_json_run (username, "exercises.json") _ _ (with_defaults d));
        simpl; [apply lookup_insert_eq|exact Hex']. }
  erewrite (write_json_run (username, "workouts.json") _ _
              (<["exercises.json" := File (snap_exercises v)]> (with_defaults d)));
    simpl.
  - unfold imported, set_user_dirs. simpl. by rewrite !insert_insert_eq.
  - apply lookup_insert_eq.
  - by rewrite lookup_insert_ne.
Qed.

Lemma imported_holds v d : holds v (imported v d).
Proof.
  unfold holds, imported. split.
  - rewrite lookup_insert_ne by done. apply lookup_insert_eq.
  - apply lookup_insert_eq.
Qed.

Lemma import_loop_run user_data s :
  NoDup user_data.*1 →
  (∀ k v, (k, v) ∈ user_data → writable k s) →
  ∃ s',
    for_each user_data import_one s = (Ok tt, s')
    ∧ users_file s' = users_file s
    ∧ (∀ k v, (k, v) ∈ user_data →
              ∃ d, user_dirs s' !! k = Some d ∧ holds v d)
    ∧ (∀ k, k ∉ user_data.*1 → user_dirs s' !! k = user_dirs s !! k).
Proof.
  revert s. induction user_data as [|[k0 v0] rest IH]; intros s Hnd Hw.
  - exists s. split; [done|]. split; [done|]. split; [|done].
    intros k v Hin. by apply elem_of_nil in Hin.
  - simpl in Hnd. apply NoDup_cons in Hnd as [Hk0 Hnd].
    assert (writable k0 s) as Hw0 by (eapply Hw; left).
    set (s1 := set_user_dirs
                 (<[k0 := imported v0 (default ∅ (user_dirs s !! k0))]>
                    (user_dirs s)) s).
    destruct (IH s1 Hnd) as (s' & Hrun & Hreg & Hfiles & Hother).
    { intros k v Hin d. unfold s1. simpl.
      rewrite lookup_insert_ne.
      - apply (Hw k v). by right.
      - intros ->. apply Hk0. apply list_elem_of_fmap. by exists (k, v). }
    exists s'. split.
    { simpl. erewrite bind_ok; [exact Hrun|].
      by apply import_one_run. }
    split; [by rewrite Hreg|]. split.
    + intros k v [[= -> ->]|Hin]%elem_of_cons; [|by apply Hfiles].
      rewrite (Hother k0 Hk0). unfold s1. simpl. rewrite lookup_insert_eq.
      eexists. split; [done|]. apply imported_holds.
    + intros k Hk. simpl in Hk. apply not_elem_of_cons in Hk as [Hne Hk].
      rewrite (Hother k Hk). unfold s1. simpl. by rewrite lookup_insert_ne.
Qed.

Lemma read_user_snapshot_holds username s v :
  read_user_snapshot username s = Ok v
  ↔ ∃ d, user_dirs s !! username = Some d ∧ holds v d
         ∧ snap_exercises v ≠ Corrupt ∧ snap_workouts v ≠ Corrupt.
Proof.
  unfold read_user_snapshot, holds, lookup_path, get_user_files,
    get_user_data_path. simpl. split.
  - destruct (user_dirs s !! username) as [d|]; simpl; [|done].
    destruct (parse_json (d !! "exercises.json")) as [ex|] eqn:Hex; [|done].
    destruct (parse_json (d !! "workouts.json")) as [wk|] eqn:Hwk; [|done].
    intros [= <-]. simpl.
    apply parse_json_ok in Hex as [Hex ?], Hwk as [Hwk ?]. by exists d.
  - intros (d & -> & [Hex Hwk] & Hnex & Hnwk). simpl. rewrite Hex, Hwk.
    destruct v as [[] []]; simpl in *; done.
Qed.

(** Reading the store of one user depends on that user's two files only. *)
Lemma loads_of_holds username s s' v d d' :
  user_dirs s !! username = Some d → holds v d →
  user_dirs s' !! username = Some d' → holds v d' →
  read_user_snapshot username s' = read_user_snapshot username s
  ∧ (load_exercises username s').1 = (load_exercises username s).1
  ∧ (load_workouts username s').1 = (load_workouts username s).1.
Proof.
  intros Hd [Hex Hwk] Hd' [Hex' Hwk'].
  rewrite !load_exercises_unfold, !load_workouts_unfold.
  unfold read_user_snapshot, lookup_path, get_user_files, get_user_data_path.
  simpl. rewrite Hd, Hd'. simpl. by rewrite Hex, Hwk, Hex', Hwk'.
Qed.

(** C1. A snapshot exported from [s] and imported (into the same data
    directory, or into any other one where nothing blocks the files to
    be written) gives back the registry of [s] and, for every registered
    user whose two files were readable at export time, files with the
    documents they held then, so that the exercise and workout
    collections load as they did. *)
Theorem snapshot_round_trip (s target : fs) (now : string) (users : list user) :
  users_file s = Some (Users users) →
  (∀ username, username ∈ names users → readable username s →
               writable username target) →
  ∃ backup s',
    create_backup_file now s = (Ok backup, s)
    ∧ restore_from_backup_file backup target
      = (Ok (true, Text "Backup restored successfully"), s')
    ∧ load_users s' = (Ok users, s')
    ∧ ∀ username, username ∈ names users → readable username s →
        read_user_snapshot username s' = read_user_snapshot username s
        ∧ (load_exercises username s').1 = (load_exercises username s).1
        ∧ (load_workouts username s').1 = (load_workouts username s).1.
Proof.
  intros Hreg Hwritable.
  destruct (collect_user_data_spec users s []) as (Hnd & Hsound & _ & Hcomplete).
  { apply NoDup_nil_2. }
  { intros k v Hin. by apply elem_of_nil in Hin. }
  set (user_data := collect_user_data users s []) in *.
  set (target1 := set_users_file (Some (Users users)) target).
  destruct (import_loop_run user_data target1 Hnd)
    as (s' & Hrun & Hreg' & Hfiles & _).
  { intros k v Hin. apply Hsound in Hin as Hread.
    assert (k ∈ names users) as Hk.
    { destruct (collect_user_data_keys users s [] k v Hin) as [?|Hnil]; [done|].
      by apply elem_of_nil in Hnil. }
    apply (Hwritable k Hk). by exists v. }
  exists (Snapshot now users user_data), s'. split.
  { unfold create_backup_file. erewrite bind_ok; [|by apply load_users_ok].
    reflexivity. }
  split.
  { unfold restore_from_backup_file, try_except. simpl.
    erewrite bind_ok; [|reflexivity].
    erewrite bind_ok; [|exact Hrun]. reflexivity. }
  split; [by apply load_users_ok|].
  intros username Hin [v Hread].
  destruct (Hfiles username v (Hcomplete username v Hin Hread))
    as (d' & Hd' & Hholds').
  apply read_user_snapshot_holds in Hread as (d & Hd & Hholds & _).
  by eapply loads_of_holds.
Qed.

(** Importing into the data directory the snapshot was taken from needs
    no side condition. *)
Lemma readable_writable username s : readable username s → writable username s.
Proof.
  intros [v Hv] d Hd.
  apply read_user_snapshot_holds in Hv as (d' & Hd' & [Hex Hwk] & _).
  rewrite Hd in Hd'. injection Hd' as <-. unfold not_dir.
  rewrite Hex, Hwk. split; by intros entries.
Qed.

Lemma snapshot_round_trip_witness :
  let s0 := (save_user "alice" "4711" "2024-05-01T10:00:00" fresh).2 in
  let s := (save_exercise "Bench Press" "Chest" "alice" "2024-05-01T10:05:00" s0).2 in
  ∃ backup s',
    create_backup_file "2024-05-02T09:00:00" s = (Ok backup, s)
    ∧ restore_from_backup_file backup s
      = (Ok (true, Text "Backup restored successfully"), s')
    ∧ load_users s'
      = (Ok [User 1 "alice" "2024-05-01T10:00:00" (Some "4711")], s')
    ∧ ∀ username,
        username ∈ names [User 1 "alice" "2024-05-01T10:00:00" (Some "4711")] →
        readable username s →
        read_user_snapshot username s' = read_user_snapshot username s
        ∧ (load_exercises username s').1 = (load_exercises username s).1
        ∧ (load_workouts username s').1 = (load_workouts username s).1.
Proof.
  intros s0 s.
  apply (snapshot_round_trip s s "2024-05-02T09:00:00"
           [User 1 "alice" "2024-05-01T10:00:00" (Some "4711")]).
  - reflexivity.
  - intros username _ Hread. by apply readable_writable.
Defined.

(** ** The last workout *)

Lemma head_insert_desc r l :
  head (insert_desc r l)
  = match head l with
    | None => Some r
    | Some r' => if bool_decide (row_date r' ≤ row_date r)%Z then Some r else Some r'
    end.
Proof. destruct l as [|r' l]; simpl; [done|]. by case_bool_decide. Qed.

(** The first row after sorting is a row of latest date. *)
Lemma head_sort_values_desc l :
  match head (sort_values_desc l) with
  | None => l = []
  | Some m => m ∈ l ∧ ∀ r, r ∈ l → (row_date r ≤ row_date m)%Z
  end.
Proof.
  induction l as [|r0 l IH]; simpl; [done|].
  rewrite head_insert_desc.
  destruct (head (sort_values_desc l)) as [m|].
  - destruct IH as [Hin Hmax]. case_bool_decide as Hle.
    + split; [left|]. intros r [->|Hr]%elem_of_cons; [lia|].
      specialize (Hmax r Hr). lia.
    + split; [by right|]. intros r [->|Hr]%elem_of_cons; [lia|by apply Hmax].
  - subst l. split; [left|]. by intros r ->%list_elem_of_singleton.
Qed.

Lemma map_res_Forall2 {A B} (f : A → res B) l :
  Forall (λ x, ∃ y, f x = Ok y) l →
  ∃ ys, map_res f l = Ok ys ∧ Forall2 (λ x y, f x = Ok y) l ys.
Proof.
  induction 1 as [|x l [y Hy] _ (ys & Hys & Hall)]; simpl.
  - by exists [].
  - exists (y :: ys). rewrite Hy, Hys. split; [done|]. by constructor.
Qed.

Lemma map_res_raises {A B} (f : A → res B) l :
  Exists (λ x, ∃ e, f x = Raise e) l → ∃ e, map_res f l = Raise e.
Proof.
  induction 1 as [x l [e He]|x l _ [e He]]; simpl.
  - rewrite He. by exists e.
  - destruct (f x) as [y|e']; [|by exists e'].
    rewrite He. by exists e.
Qed.

Lemma parse_row_exercise to_datetime w r :
  parse_row to_datetime w = Ok r → row_exercise r = w_exercise w.
Proof.
  unfold parse_row. destruct (to_datetime (w_date w)); [|done].
  by intros [= <-].
Qed.

(** A stored date after a later one, appended by a CSV import: the set
    returned is the one of latest date, not the one appended last. *)
Lemma get_last_workout_not_last_appended :
  let s0 := (save_user "alice" "4711" "2024-05-01T10:00:00" fresh).2 in
  let s1 := (save_workout "squat" (Finite 100 0) 5 "alice" "2024-05-02" s0).2 in
  let df := DataFrame ["date"; "exercise"; "weight"; "reps"]
              [Record_ (CStr "2024-05-01") (CStr "Squat") (CInt 80) (CInt 8)] in
  let s2 := (import_from_csv iso_to_date decimal_float decimal_int
               (Ok df) "alice" (λ _, "2024-05-03T18:00:00") s1).2 in
  (get_last_workout iso_to_datetime "squat" "alice" s0).1 = Ok None
  ∧ (load_workouts "alice" s2).1
    = Ok [Workout "2024-05-02" "squat" (Finite 100 0) 5;
          Workout "2024-05-01" "squat" (Finite 80 0) 8]
  ∧ (get_last_workout iso_to_datetime "squat" "alice" s2).1
    = Ok (Some (Row 20240502 "squat" (Finite 100 0) 5))
  ∧ (get_last_workout iso_to_datetime "squat" "alice" s2).1
    ≠ Ok (Some (Row 20240501 "squat" (Finite 80 0) 8)).
Proof.
  intros s0 s1 df s2.
  split; [by vm_compute|]. split; [by vm_compute|].
  split; [by vm_compute|]. vm_compute. discriminate.
Qed.

(** C7 (amended). With every stored date readable, [get_last_workout]
    returns none when no stored set has exercise [E]; otherwise it returns
    a stored set of [E] whose date is the latest among the sets of [E],
    which need not be the set appended last. *)
Theorem get_last_workout_latest_date (to_datetime : string → option Z)
    (s : fs) (username exercise_ : string) (log : list workout) :
  load_workouts username s = (Ok log, s) →
  Forall (λ w, is_Some (to_datetime (w_date w))) log →
  (Forall (λ w, w_exercise w ≠ exercise_) log →
   get_last_workout to_datetime exercise_ username s = (Ok None, s))
  ∧ (Exists (λ w, w_exercise w = exercise_) log →
     ∃ w r,
       get_last_workout to_datetime exercise_ username s = (Ok (Some r), s)
       ∧ w ∈ log ∧ w_exercise w = exercise_
       ∧ parse_row to_datetime w = Ok r
       ∧ ∀ w' r', w' ∈ log → w_exercise w' = exercise_ →
                  parse_row to_datetime w' = Ok r' →
                  (row_date r' ≤ row_date r)%Z).
Proof.
  intros Hload Hdates.
  destruct (map_res_Forall2 (parse_row to_datetime) log) as (df & Hdf & Hrows).
  { eapply Forall_impl; [exact Hdates|]. intros w [t Ht].
    unfold parse_row. rewrite Ht. by eexists. }
  assert (get_last_workout to_datetime exercise_ username s
          = (Ok (head (sort_values_desc
                         (filter (λ r, row_exercise r = exercise_) df))), s))
    as Hrun.
  { unfold get_last_workout. erewrite bind_ok; [|exact Hload].
    case_bool_decide as Hnil.
    - subst log. simpl in Hdf. by injection Hdf as <-.
    - by erewrite bind_ok; [|unfold lift; rewrite Hdf]. }
  rewrite Hrun.
  pose proof (head_sort_values_desc
                (filter (λ r, row_exercise r = exercise_) df)) as Hhead.
  split.
  - intros Hnone.
    destruct (head _) as [m|]; [|done]. destruct Hhead as [Hm _].
    apply list_elem_of_filter in Hm as [Hex Hm].
    apply list_elem_of_lookup in Hm as [i Hi].
    destruct (Forall2_lookup_r _ _ _ _ _ Hrows Hi) as (w & Hw & Hp).
    apply parse_row_exercise in Hp. rewrite Forall_forall in Hnone.
    destruct (Hnone w); [by eapply list_elem_of_lookup_2|congruence].
  - intros Hsome. apply Exists_exists in Hsome as (w0 & Hw0 & Hex0).
    apply list_elem_of_lookup in Hw0 as [i Hi].
    destruct (Forall2_lookup_l _ _ _ _ _ Hrows Hi) as (r0 & Hr0 & Hp0).
    assert (r0 ∈ filter (λ r, row_exercise r = exercise_) df) as Hin0.
    { apply list_elem_of_filter. split; [|by eapply list_elem_of_lookup_2].
      by rewrite (parse_row_exercise _ _ _ Hp0). }
    destruct (head _) as [m|]; [|by rewrite Hhead in Hin0; apply elem_of_nil in Hin0].
    destruct Hhead as [Hm Hmax].
    apply list_elem_of_filter in Hm as [Hex Hm].
    apply list_elem_of_lookup in Hm as [j Hj].
    destruct (Forall2_lookup_r _ _ _ _ _ Hrows Hj) as (w & Hw & Hp).
    exists w, m. split; [done|]. split; [by eapply list_elem_of_lookup_2|].
    split; [by rewrite <- (parse_row_exercise _ _ _ Hp)|]. split; [done|].
    intros w' r' Hw' Hex' Hp'. apply Hmax.
    apply list_elem_of_filter. split; [by rewrite (parse_row_exercise _ _ _ Hp')|].
    apply list_elem_of_lookup in Hw' as [k Hk].
    destruct (Forall2_lookup_l _ _ _ _ _ Hrows Hk) as (r'' & Hr'' & Hp'').
    rewrite Hp' in Hp''. injection Hp'' as <-. by eapply list_elem_of_lookup_2.
Qed.

Lemma get_last_workout_latest_date_witness :
  let s0 := (save_user "alice" "4711" "2024-05-01T10:00:00" fresh).2 in
  let s1 := (save_workout "squat" (Finite 100 0) 5 "alice" "2024-05-02" s0).2 in
  let s2 := (save_workout "squat" (Finite 105 0) 5 "alice" "2024-05-09" s1).2 in
  let log := [Workout "2024-05-02" "squat" (Finite 100 0) 5;
              Workout "2024-05-09" "squat" (Finite 105 0) 5] in
  ∃ w r,
    get_last_workout iso_to_datetime "squat" "alice" s2 = (Ok (Some r), s2)
    ∧ w ∈ log ∧ w_exercise w = "squat"
    ∧ parse_row iso_to_datetime w = Ok r
    ∧ ∀ w' r', w' ∈ log → w_exercise w' = "squat" →
               parse_row iso_to_datetime w' = Ok r' →
               (row_date r' ≤ row_date r)%Z.
Proof.
  intros s0 s1 s2 log.
  apply (proj2 (get_last_workout_latest_date iso_to_datetime s2 "alice" "squat" log
                  eq_refl
                  ltac:(repeat constructor; by eexists))).
  apply Exists_cons_hd. reflexivity.
Defined.

(** ** A CSV import that fails on a row *)

Lemma same_but_exercises_refl username s : same_but_exercises username s s.
Proof. by repeat split. Qed.

Lemma write_json_frame p c s q :
  q ≠ p → lookup_path q (write_json p c s).2 = lookup_path q s.
Proof.
  intros Hne. unfold write_json, bind, get, raise, modify.
  destruct (user_dirs s !! p.1) as [d|] eqn:Hd; [|done].
  assert (lookup_path q
            (set_user_dirs (<[p.1 := <[p.2 := File c]> d]> (user_dirs s)) s)
          = lookup_path q s) as Hset.
  { unfold lookup_path. simpl.
    destruct (decide (p.1 = q.1)) as [Heq|Hne1].
    - rewrite <- Heq, lookup_insert_eq, Hd. simpl.
      rewrite lookup_insert_ne; [done|].
      intros Heq2. apply Hne. destruct p, q; simpl in *. congruence.
    - by rewrite lookup_insert_ne. }
  by destruct (d !! p.2) as [[]|].
Qed.

Lemma write_exercises_same_but username c s :
  same_but_exercises username s
    (write_json (exercises (get_user_files username)) c s).2.
Proof.
  split; [|split; [|split]].
  - unfold write_json, bind, get, raise, modify.
    destruct (user_dirs s !! _) as [d|]; [|done]. by destruct (d !! _) as [[]|].
  - unfold write_json, bind, get, raise, modify.
    destruct (user_dirs s !! _) as [d|]; [|done]. by destruct (d !! _) as [[]|].
  - unfold write_json, bind, get, raise, modify.
    destruct (user_dirs s !! _) as [d|]; [|done]. by destruct (d !! _) as [[]|].
  - intros p Hp. by apply write_json_frame.
Qed.

Lemma load_exercises_state username s : (load_exercises username s).2 = s.
Proof. by rewrite load_exercises_unfold. Qed.

Lemma load_workouts_state username s : (load_workouts username s).2 = s.
Proof. by rewrite load_workouts_unfold. Qed.

Lemma map_res_apply_normalize records df_ :
  map_res apply_normalize records = Ok df_ → df_.*1 = records.
Proof.
  revert df_. induction records as [|r records IH]; intros df_; simpl.
  - by intros [= <-].
  - unfold apply_normalize at 1. destruct (r_exercise r); [|done..].
    destruct (map_res apply_normalize records) as [ys|]; [|done].
    intros [= <-]. rewrite fmap_cons. simpl. f_equal. by apply IH.
Qed.

Section CsvImport.
Variable to_date : cell → option string.
Variable str_to_float : string → option pyfloat.
Variable str_to_int : string → option Z.

Lemma coerce_workout_raises (workout_ : record * string) :
¬ coercible to_date str_to_float str_to_int workout_.1 →
∃ e, coerce_workout to_date str_to_float str_to_int workout_ = Raise e.
Proof.
intros Hnot. unfold coerce_workout.
destruct (to_date (r_date workout_.1)) as [date|] eqn:Hdate; [|by eexists].
destruct (py_float str_to_float (r_weight workout_.1)) as [weight|e] eqn:Hw;
  [|by eexists].
destruct (py_int str_to_int (r_reps workout_.1)) as [reps|e] eqn:Hr;
  [|by eexists].
destruct Hnot. unfold coercible. rewrite Hdate, Hw, Hr. eauto.
Qed.

(** The body of the [try] raises, having touched at most the exercises
  file. *)
Lemma import_body_raises df username now s :
Forall (λ col, col ∈ df_columns df) ["date"; "exercise"; "weight"; "reps"] →
Exists (λ r, ¬ coercible to_date str_to_float str_to_int r) (df_records df) →
∃ e s',
  import_from_csv to_date str_to_float str_to_int (Ok df) username now s
  = (Ok (false, ErrorText "Error importing data: " e), s')
  ∧ same_but_exercises username s s'.
Proof.
intros Hcols Hbad. unfold import_from_csv, try_except.
erewrite bind_ok; [|reflexivity].
assert (forallb (λ col, bool_decide (col ∈ df_columns df))
          ["date"; "exercise"; "weight"; "reps"] = true) as ->.
{ apply forallb_forall. intros col Hcol. apply bool_decide_eq_true.
  rewrite Forall_forall in Hcols. by apply Hcols, list_elem_of_In. }
change (negb true) with false. cbv iota.
destruct (map_res apply_normalize (df_records df)) as [df_|e] eqn:Hnorm.
2:{ exists e, s. split; [|apply same_but_exercises_refl].
    by erewrite bind_raise; [|reflexivity]. }
erewrite bind_ok; [|reflexivity].
pose proof (load_exercises_state username s) as Hst.
destruct (load_exercises username s) as [[existing|e] s0] eqn:Hload;
  simpl in Hst; subst s0.
2:{ exists e, s. split; [|apply same_but_exercises_refl].
    by erewrite bind_raise. }
erewrite bind_ok; [|exact Hload].
set (new_exercises := imap _ _).
set (write := if bool_decide (new_exercises = []) then ret tt else _).
assert (same_but_exercises username s (write s).2) as Hframe.
{ unfold write. case_bool_decide; [apply same_but_exercises_refl|].
  apply write_exercises_same_but. }
destruct (write s) as [[[]|e] s1] eqn:Hwrite; simpl in Hframe.
2:{ exists e, s1. split; [|done]. by erewrite bind_raise. }
erewrite bind_ok; [|exact Hwrite].
pose proof (load_workouts_state username s1) as Hst.
destruct (load_workouts username s1) as [[workouts_|e] s2] eqn:Hloadw;
  simpl in Hst; subst s2.
2:{ exists e, s1. split; [|done]. by erewrite bind_raise. }
erewrite bind_ok; [|exact Hloadw].
destruct (map_res_raises (coerce_workout to_date str_to_float str_to_int) df_)
  as [e He].
{ apply map_res_apply_normalize in Hnorm. rewrite <- Hnorm in Hbad.
  apply Exists_exists in Hbad as (r & Hr & Hnot).
  apply list_elem_of_fmap in Hr as (workout_ & -> & Hin).
  apply Exists_exists. exists workout_. split; [done|].
  by apply coerce_workout_raises. }
exists e, s1. split; [|done].
by erewrite bind_raise; [|unfold lift; rewrite He].
Qed.
End CsvImport.

(** A new exercise name in a file whose only row has unreadable reps:
    the import fails, and the catalog has grown all the same. *)
Lemma import_from_csv_partial_commit :
  let s0 := (save_user "alice" "4711" "2024-05-01T10:00:00" fresh).2 in
  let df := DataFrame ["date"; "exercise"; "weight"; "reps"]
              [Record_ (CStr "2024-05-01") (CStr "Deadlift") (CInt 100) (CStr "abc")] in
  let out := import_from_csv iso_to_date decimal_float decimal_int
               (Ok df) "alice" (λ _, "2024-05-03T18:00:00") s0 in
  out.1 = Ok (false, ErrorText "Error importing data: " ValueError)
  ∧ (load_exercises "alice" s0).1 = Ok []
  ∧ (load_exercises "alice" out.2).1
    = Ok [Exercise "deadlift" "Other" "2024-05-03T18:00:00"]
  ∧ (load_workouts "alice" out.2).1 = (load_workouts "alice" s0).1
  ∧ out.2 ≠ s0.
Proof.
  intros s0 df out.
  split; [by vm_compute|]. split; [by vm_compute|].
  split; [by vm_compute|]. split; [by vm_compute|].
  intros Heq. apply (f_equal (λ s, (load_exercises "alice" s).1)) in Heq.
  vm_compute in Heq. discriminate.
Qed.

(** C8 (amended). When all required columns are present and some row
    has a date, weight or reps that cannot be coerced, the import returns
    a failure whose message starts with "Error importing data: ", and no
    workout row is committed: the workouts file, and everything else but
    the user's exercises file, is as before.  (New exercise names may
    already have been written to the exercises file.) *)
Theorem import_from_csv_uncoercible_row
    (to_date : cell → option string) (str_to_float : string → option pyfloat)
    (str_to_int : string → option Z)
    (df : dataframe) (username : string) (now : nat → string) (s : fs) :
  Forall (λ col, col ∈ df_columns df) ["date"; "exercise"; "weight"; "reps"] →
  Exists (λ r, ¬ coercible to_date str_to_float str_to_int r) (df_records df) →
  ∃ e s',
    import_from_csv to_date str_to_float str_to_int (Ok df) username now s
    = (Ok (false, ErrorText "Error importing data: " e), s')
    ∧ lookup_path (workouts (get_user_files username)) s'
      = lookup_path (workouts (get_user_files username)) s
    ∧ (load_workouts username s').1 = (load_workouts username s).1
    ∧ same_but_exercises username s s'.
Proof.
  intros Hcols Hbad.
  destruct (import_body_raises to_date str_to_float str_to_int df username now s
              Hcols Hbad) as (e & s' & Hrun & Hframe).
  exists e, s'. split; [done|].
  assert (lookup_path (workouts (get_user_files username)) s'
          = lookup_path (workouts (get_user_files username)) s) as Hwk.
  { destruct Hframe as (_ & _ & _ & Hp). by apply Hp. }
  split; [done|]. split; [|done].
  rewrite !load_workouts_unfold.
  change (workouts (get_user_files username))
    with (username, "workouts.json") in Hwk.
  by rewrite Hwk.
Qed.

Lemma import_from_csv_uncoercible_row_witness :
  let s := (save_user "alice" "4711" "2024-05-01T10:00:00" fresh).2 in
  let df := DataFrame ["date"; "exercise"; "weight"; "reps"]
              [Record_ (CStr "2024-05-01") (CStr "Deadlift") (CInt 100) (CStr "abc")] in
  ∃ e s',
    import_from_csv iso_to_date decimal_float decimal_int (Ok df) "alice"
      (λ _, "2024-05-03T18:00:00") s
    = (Ok (false, ErrorText "Error importing data: " e), s')
    ∧ lookup_path (workouts (get_user_files "alice")) s'
      = lookup_path (workouts (get_user_files "alice")) s
    ∧ (load_workouts "alice" s').1 = (load_workouts "alice" s).1
    ∧ same_but_exercises "alice" s s'.
Proof.
  intros s df.
  apply (import_from_csv_uncoercible_row iso_to_date decimal_float decimal_int
           df "alice" (λ _, "2024-05-03T18:00:00") s).
  - repeat constructor.
  - apply Exists_cons_hd. intros (_ & _ & z & Hz). discriminate Hz.
Defined.

(** ** Two scenarios run on the embedding *)

(** Register "alice", add "Bench Press" under "Chest", log one set: the
    last workout for "bench press" is that set. *)
Example scenario_last_workout :
  let s0 := (save_user "alice" "4711" "2024-05-01T10:00:00" fresh).2 in
  let s1 := (save_exercise "Bench Press" "Chest" "alice" "2024-05-01T10:05:00" s0).2 in
  let s2 := (save_workout "bench press" (Finite 60 0) 5 "alice" "2024-05-01" s1).2 in
  (load_exercises "alice" s2).1
  = Ok [Exercise "bench press" "Chest" "2024-05-01T10:05:00"]
  ∧ (get_last_workout iso_to_datetime "bench press" "alice" s2).1
    = Ok (Some (Row 20240501 "bench press" (Finite 60 0) 5)).
Proof. split; by vm_compute. Qed.

(** Seven backups in a row leave the five most recent folders. *)
Example scenario_backup_retention :
  let stamps := ["20240501_100000"; "20240501_100001"; "20240501_100002";
                 "20240501_100003"; "20240501_100004"; "20240501_100005";
                 "20240501_100006"] in
  let s := foldl (λ s stamp, (create_backup stamp s).2) fresh stamps in
  sorted (listdir (backups s))
  = ["backup_20240501_100002"; "backup_20240501_100003";
     "backup_20240501_100004"; "backup_20240501_100005";
     "backup_20240501_100006"].
Proof. by vm_compute. Qed.

(** * Part III. Further properties of the data layer *)

(** ** Storage initialisation and registration *)







(** ** Refusals *)


Lemma load_users_state s : (load_users s).2 = s.
Proof.
  unfold load_users, bind, get, raise, ret. simpl.
  by destruct (users_file s) as [[]|].
Qed.

Lemma load_users_Ok_inv s users s' :
  load_users s = (Ok users, s') → s' = s ∧ users_file s = Some (Users users).
Proof.
  unfold load_users, bind, get, raise, ret. simpl.
  destruct (users_file s) as [[]|]; intros [= <- <-]; done.
Qed.



(** ** Backups: what is written and what is kept *)

Section Preserves.
Context (R : fs → fs → Prop) `{!Reflexive R, !Transitive R}.


Lemma preserves_raise {A} e : preserves R (@raise A e).
Proof. intros s. simpl. reflexivity. Qed.


Lemma preserves_lift {A} (r : res A) : preserves R (lift r).
Proof. intros s. simpl. reflexivity. Qed.

Lemma preserves_load_users : preserves R load_users.
Proof. intros s. rewrite load_users_state. reflexivity. Qed.


End Preserves.

#[local] Instance backups_agree_off_refl bp : Reflexive (backups_agree_off bp).
Proof. by intros s. Qed.

#[local] Instance backups_agree_off_trans bp : Transitive (backups_agree_off bp).
Proof.
  intros s1 s2 s3 [H1 H1'] [H2 H2']. split.
  - intros k Hk. by rewrite H2, H1.
  - auto.
Qed.





















(** ** Deleting and restoring a user *)







(** ** The names offered for restoring *)

Lemma append_assoc (a b c : string) : (a +:+ b) +:+ c = a +:+ b +:+ c.
Proof.
  induction a as [|x a IH]; [done|].
  change (String x ((a +:+ b) +:+ c) = String x (a +:+ b +:+ c)).
  by rewrite IH.
Qed.


Lemma rsplit_head_no_underscore d :
  PyStr.all_chars (λ x, negb (bool_decide (x = "_"%char))) d = true →
  rsplit_head d = d.
Proof.
  destruct d as [|c d]; [done|]. simpl.
  intros [Hc Hd]%andb_true_iff. rewrite Hd.
  apply negb_true_iff in Hc. by rewrite Hc.
Qed.

Lemma rsplit_head_last_underscore a t :
  PyStr.all_chars (λ x, negb (bool_decide (x = "_"%char))) t = true →
  rsplit_head (a +:+ "_" +:+ t) = a.
Proof.
  intros Ht. induction a as [|c a IH].
  - change (rsplit_head (String "_" t) = "").
    cbn [rsplit_head]. by rewrite Ht.
  - change (rsplit_head (String c (a +:+ "_" +:+ t)) = String c a).
    cbn [rsplit_head]. rewrite IH.
    rewrite PyStrFacts.all_chars_app. simpl.
    by rewrite andb_false_r.
Qed.

Lemma elem_of_get_archived_users s n :
  n ∈ get_archived_users s ↔ ∃ d, is_Some (archive s !! d) ∧ rsplit_head d = n.
Proof.
  unfold get_archived_users.
  rewrite sorted_elem_of, elem_of_remove_dups, list_elem_of_fmap.
  split.
  - intros (d & -> & Hd). exists d. by rewrite <- elem_of_listdir.
  - intros (d & Hd & <-). exists d. by rewrite elem_of_listdir.
Qed.

Lemma get_archived_users_offered s a t :
  PyStr.all_chars (λ x, negb (bool_decide (x = "_"%char))) t = true →
  is_Some (archive s !! (a +:+ "_" +:+ t)) →
  a ∈ get_archived_users s.
Proof.
  intros Ht Hd. apply elem_of_get_archived_users. eexists. split; [exact Hd|].
  by apply rsplit_head_last_underscore.
Qed.

(** X8. [get_archived_users] returns, sorted and without repetitions,
    exactly what stands before the last underscore of each archive
    folder's name (the whole name when it has no underscore).  Since the
    stamp written by [delete_user] itself has the form [date_time], the
    entry for a folder [name_date_time] is [name_date]. *)
Theorem get_archived_users_spec (s : fs) :
  StronglySorted String.le (get_archived_users s)
  ∧ NoDup (get_archived_users s)
  ∧ (∀ n, n ∈ get_archived_users s
          ↔ ∃ d, is_Some (archive s !! d) ∧ rsplit_head d = n)
  ∧ (∀ d, PyStr.all_chars (λ x, negb (bool_decide (x = "_"%char))) d = true →
          is_Some (archive s !! d) → d ∈ get_archived_users s)
  ∧ (∀ name date time,
       PyStr.all_chars (λ x, negb (bool_decide (x = "_"%char))) time = true →
       is_Some (archive s !! (name +:+ "_" +:+ date +:+ "_" +:+ time)) →
       name +:+ "_" +:+ date ∈ get_archived_users s).
Proof.
  split; [apply StronglySorted_merge_sort; apply _|].
  split.
  { unfold get_archived_users, sorted. rewrite merge_sort_Permutation.
    apply NoDup_remove_dups. }
  split; [apply elem_of_get_archived_users|].
  split.
  { intros d Hd Hsome. apply elem_of_get_archived_users. exists d.
    split; [done|]. by apply rsplit_head_no_underscore. }
  intros name date time Ht Hd.
  apply (get_archived_users_offered s (name +:+ "_" +:+ date) time Ht).
  by rewrite !append_assoc.
Qed.



(** ** The workout log *)

Lemma map_res_app {A B} (f : A → res B) l1 l2 ys1 ys2 :
  map_res f l1 = Ok ys1 → map_res f l2 = Ok ys2 →
  map_res f (l1 ++ l2) = Ok (ys1 ++ ys2).
Proof.
  revert ys1. induction l1 as [|x l1 IH]; intros ys1; simpl.
  - by intros [= <-].
  - destruct (f x) as [y|]; [|done].
    destruct (map_res f l1) as [ys|]; [|done].
    intros [= <-] H2. by rewrite (IH ys eq_refl H2).
Qed.

Lemma map_res_Ok_elem {A B} (f : A → res B) l ys y :
  map_res f l = Ok ys → y ∈ ys → ∃ x, x ∈ l ∧ f x = Ok y.
Proof.
  revert ys. induction l as [|x l IH]; intros ys; simpl.
  - intros [= <-] Hy. by apply elem_of_nil in Hy.
  - destruct (f x) as [y0|] eqn:Hx; [|done].
    destruct (map_res f l) as [ys0|]; [|done].
    intros [= <-] [->|Hy]%elem_of_cons.
    + exists x. split; [left|done].
    + destruct (IH ys0 eq_refl Hy) as (x' & Hin & Hf).
      exists x'. split; [by right|done].
Qed.

Lemma map_res_length {A B} (f : A → res B) l ys :
  map_res f l = Ok ys → length ys = length l.
Proof.
  revert ys. induction l as [|x l IH]; intros ys; simpl.
  - by intros [= <-].
  - destruct (f x) as [y0|]; [|done].
    destruct (map_res f l) as [ys0|]; [|done].
    intros [= <-]. simpl. by rewrite (IH ys0).
Qed.

Lemma parse_row_Ok to_datetime w r :
  parse_row to_datetime w = Ok r →
  to_datetime (w_date w) = Some (row_date r) ∧ row_exercise r = w_exercise w.
Proof.
  unfold parse_row. destruct (to_datetime (w_date w)); [|done].
  by intros [= <-].
Qed.

Lemma map_res_parse_row_raises to_datetime log :
  Exists (λ w, to_datetime (w_date w) = None) log →
  map_res (parse_row to_datetime) log = Raise ValueError.
Proof.
  induction log as [|w log IH]; intros Hex; [by apply Exists_nil in Hex|].
  simpl. unfold parse_row at 1.
  destruct (to_datetime (w_date w)) as [t|] eqn:Ht; [|done].
  apply Exists_cons in Hex as [Hw|Hex]; [congruence|].
  by rewrite (IH Hex).
Qed.

Lemma head_sort_strict_max l r :
  (∀ r', r' ∈ l → (row_date r' < row_date r)%Z) →
  head (sort_values_desc (l ++ [r])) = Some r.
Proof.
  intros Hlt. pose proof (head_sort_values_desc (l ++ [r])) as Hhead.
  destruct (head (sort_values_desc (l ++ [r]))) as [m|].
  - destruct Hhead as [Hm Hmax].
    apply elem_of_app in Hm as [Hm|Hm%list_elem_of_singleton]; [|by subst].
    specialize (Hlt m Hm).
    assert (row_date r ≤ row_date m)%Z.
    { apply Hmax, elem_of_app. right. by apply list_elem_of_singleton. }
    lia.
  - by destruct l.
Qed.

Lemma save_workout_run exercise_ weight reps username today s log :
  load_workouts username s = (Ok log, s) →
  ∃ s',
    save_workout exercise_ weight reps username today s = (Ok tt, s')
    ∧ load_workouts username s'
      = (Ok (log ++ [Workout today exercise_ weight reps]), s')
    ∧ s' = (write_json (workouts (get_user_files username))
              (Workouts (log ++ [Workout today exercise_ weight reps])) s).2.
Proof.
  intros Hload. unfold save_workout, bind. rewrite Hload.
  apply load_workouts_ok, lookup_path_Some in Hload as (d & Hd & Hf).
  erewrite (write_json_over_file (username, "workouts.json")); [|done..].
  eexists; split; [done|]. split; [|done].
  apply load_workouts_ok, lookup_path_written.
Qed.

(** X10. Logging a set and asking for the last workout of that
    exercise: when every stored date can be read and the day of the new
    set is later than the day of every stored set of the exercise,
    [save_workout] appends the set at the end of the log and
    [get_last_workout] then returns exactly that set.  No other file is
    changed. *)
Theorem save_workout_then_last (to_datetime : string → option Z) (s : fs)
    (username exercise_ today : string) (weight : pyfloat) (reps t : Z)
    (log : list workout) :
  load_workouts username s = (Ok log, s) →
  Forall (λ w, is_Some (to_datetime (w_date w))) log →
  to_datetime today = Some t →
  (∀ w t', w ∈ log → w_exercise w = exercise_ →
           to_datetime (w_date w) = Some t' → (t' < t)%Z) →
  ∃ s',
    save_workout exercise_ weight reps username today s = (Ok tt, s')
    ∧ load_workouts username s'
      = (Ok (log ++ [Workout today exercise_ weight reps]), s')
    ∧ get_last_workout to_datetime exercise_ username s'
      = (Ok (Some (Row t exercise_ weight reps)), s')
    ∧ (∀ p, p ≠ workouts (get_user_files username) →
            lookup_path p s' = lookup_path p s)
    ∧ users_file s' = users_file s ∧ archive s' = archive s
    ∧ backups s' = backups s.
Proof.
  intros Hload Hdates Htoday Hlater.
  destruct (save_workout_run exercise_ weight reps username today s log Hload)
    as (s' & Hrun & Hload' & Hs').
  exists s'. split; [done|]. split; [done|].
  split.
  { unfold get_last_workout. erewrite bind_ok by exact Hload'.
    rewrite bool_decide_eq_false_2 by (by destruct log).
    destruct (map_res_Forall2 (parse_row to_datetime) log) as (rows & Hrows & _).
    { eapply Forall_impl; [exact Hdates|]. intros w [t0 Ht0].
      unfold parse_row. rewrite Ht0. by eexists. }
    erewrite bind_ok; cycle 1.
    { unfold lift. erewrite map_res_app; [reflexivity|exact Hrows|].
      simpl. unfold parse_row. simpl. rewrite Htoday. reflexivity. }
    unfold ret. do 2 f_equal.
    rewrite filter_app, filter_cons, decide_True by done.
    rewrite filter_nil. apply head_sort_strict_max.
    intros r' [Hex Hr']%list_elem_of_filter. simpl.
    destruct (map_res_Ok_elem _ _ _ _ Hrows Hr') as (w & Hw & Hparse).
    apply parse_row_Ok in Hparse as [Hdate Hname].
    apply (Hlater w); [done|congruence|done]. }
  rewrite Hs'. split; [by intros p Hp; apply write_json_frame|].
  unfold write_json, bind, get, raise, modify.
  destruct (user_dirs s !! _) as [d|]; [|done]. by destruct (d !! _) as [[]|].
Qed.

Lemma save_workout_then_last_witness :
  let s := (save_workout "squat" (Finite 100 0) 5 "alice" "2024-05-02"
              (save_user "alice" "4711" "2024-05-01T10:00:00" fresh).2).2 in
  ∃ s',
    save_workout "squat" (Finite 105 0) 3 "alice" "2024-05-09" s = (Ok tt, s')
    ∧ get_last_workout iso_to_datetime "squat" "alice" s'
      = (Ok (Some (Row 20240509 "squat" (Finite 105 0) 3)), s').
Proof.
  intros s.
  destruct (save_workout_then_last iso_to_datetime s "alice" "squat" "2024-05-09"
              (Finite 105 0) 3 20240509
              [Workout "2024-05-02" "squat" (Finite 100 0) 5])
    as (s' & Hrun & _ & Hlast & _).
  - by vm_compute.
  - apply Forall_singleton. by eexists.
  - reflexivity.
  - intros w t' ->%list_elem_of_singleton _ [= <-]. done.
  - by exists s'.
Defined.

(** X11. [get_last_workout] reads the date of every stored set before
    it filters by exercise: one stored set whose date cannot be read
    makes it raise [ValueError] for every exercise, also for those
    without such a set.  The state is not changed. *)
Theorem get_last_workout_unreadable_date (to_datetime : string → option Z)
    (s : fs) (username exercise_ : string) (log : list workout) :
  load_workouts username s = (Ok log, s) →
  Exists (λ w, to_datetime (w_date w) = None) log →
  get_last_workout to_datetime exercise_ username s = (Raise ValueError, s).
Proof.
  intros Hload Hbad. unfold get_last_workout.
  erewrite bind_ok by exact Hload.
  rewrite bool_decide_eq_false_2.
  2:{ intros ->. by apply Exists_nil in Hbad. }
  erewrite bind_raise; [done|].
  unfold lift. by rewrite map_res_parse_row_raises.
Qed.

Lemma get_last_workout_unreadable_date_witness :
  let s := (save_workout "squat" (Finite 100 0) 5 "alice" "yesterday"
              (save_user "alice" "4711" "2024-05-01T10:00:00" fresh).2).2 in
  get_last_workout iso_to_datetime "bench press" "alice" s
  = (Raise ValueError, s).
Proof.
  intros s.
  apply (get_last_workout_unreadable_date iso_to_datetime s "alice" "bench press"
           [Workout "yesterday" "squat" (Finite 100 0) 5]).
  - by vm_compute.
  - apply Exists_cons_hd. reflexivity.
Defined.

(** ** The exercise catalog *)

Lemma keys_cons ex l :
  keys (ex :: l) = normalize_exercise_name (ex_name ex) :: keys l.
Proof. reflexivity. Qed.

Lemma replace_first_Some_inv key g l l' :
  normalize_exercise_name key = key →
  replace_first key g l = Some l' →
  keys l' = keys l
  ∧ key ∈ keys l
  ∧ filter (λ ex, ¬ has_key key ex) l' = filter (λ ex, ¬ has_key key ex) l.
Proof.
  intros Hkey. revert l'.
  induction l as [|ex l IH]; intros l'; cbn [replace_first]; [done|].
  case_bool_decide as Hex.
  - intros [= <-]. rewrite !keys_cons. simpl.
    rewrite Hkey, Hex. split; [done|]. split; [left|].
    rewrite !filter_cons. unfold has_key at 1 3. simpl.
    rewrite decide_False by (by intros []).
    by rewrite decide_False by (by intros []).
  - destruct (replace_first key g l) as [l0|]; [|done]. simpl.
    intros [= <-]. destruct (IH l0 eq_refl) as (Hk & Hin & Hf).
    rewrite !keys_cons, Hk. split; [done|].
    split; [by right|]. rewrite !filter_cons, Hf. done.
Qed.

Lemma replace_first_None_inv key g l :
  replace_first key g l = None → key ∉ keys l.
Proof.
  induction l as [|ex l IH]; cbn [replace_first];
    [intros _; apply not_elem_of_nil|].
  case_bool_decide as Hex; [done|].
  destruct (replace_first key g l) as [l0|]; [done|]. intros _.
  rewrite keys_cons. intros [?|?]%elem_of_cons; [done|].
  by apply IH.
Qed.

Lemma upsert_keys name g now catalog :
  let key := normalize_exercise_name name in
  keys (upsert name g now catalog)
  = if decide (key ∈ keys catalog) then keys catalog else keys catalog ++ [key].
Proof.
  intros key. unfold upsert. fold key.
  destruct (replace_first key g catalog) as [l|] eqn:Hr.
  - apply replace_first_Some_inv in Hr as (Hk & Hin & _);
      [|apply normalize_idempotent].
    by rewrite decide_True.
  - apply replace_first_None_inv in Hr. rewrite decide_False by done.
    unfold keys. rewrite fmap_app. simpl. f_equal. f_equal.
    apply normalize_idempotent.
Qed.

Lemma upsert_others name g now catalog :
  let key := normalize_exercise_name name in
  filter (λ ex, ¬ has_key key ex) (upsert name g now catalog)
  = filter (λ ex, ¬ has_key key ex) catalog.
Proof.
  intros key. unfold upsert. fold key.
  destruct (replace_first key g catalog) as [l|] eqn:Hr.
  - by apply replace_first_Some_inv in Hr as (_ & _ & Hf);
      [|apply normalize_idempotent].
  - rewrite filter_app, filter_cons. unfold has_key at 2. simpl.
    rewrite decide_False; [by rewrite filter_nil, app_nil_r|].
    intros Hn. apply Hn, normalize_idempotent.
Qed.

Lemma upsert_has_saved name g now catalog :
  ∃ created,
    Exercise (normalize_exercise_name name) g created ∈ upsert name g now catalog.
Proof.
  pose proof (upsert_filter name g now catalog) as Hf. cbv zeta in Hf.
  set (key := normalize_exercise_name name) in *.
  assert (∃ created,
            Exercise key g created
            ∈ filter (has_key key) (upsert name g now catalog)) as [created Hin].
  { rewrite Hf. destruct (filter _ catalog) as [|ex others].
    - exists now. left.
    - exists (ex_created_at ex). left. }
  exists created. by apply list_elem_of_filter in Hin as [_ ?].
Qed.

(** X12. [save_exercise] touches one key only: the catalog entries
    stored under other normalized names are the same, in the same order,
    afterwards; the sequence of keys is unchanged when the key was
    present and has the new key at its end otherwise, so keys that were
    pairwise distinct stay so.  Only the exercises file of that user is
    written. *)
Theorem save_exercise_keeps_others (s : fs)
    (name muscle_group username now : string) (catalog : list exercise) :
  let key := normalize_exercise_name name in
  load_exercises username s = (Ok catalog, s) →
  ∃ s' catalog',
    save_exercise name muscle_group username now s = (Ok tt, s')
    ∧ load_exercises username s' = (Ok catalog', s')
    ∧ filter (λ ex, ¬ has_key key ex) catalog'
      = filter (λ ex, ¬ has_key key ex) catalog
    ∧ keys catalog'
      = (if decide (key ∈ keys catalog) then keys catalog
         else keys catalog ++ [key])
    ∧ (NoDup (keys catalog) → NoDup (keys catalog'))
    ∧ same_but_exercises username s s'.
Proof.
  intros key Hload.
  destruct (save_exercise_run name muscle_group username now s catalog Hload)
    as (s' & Hrun & Hload').
  exists s', (upsert name muscle_group now catalog).
  split; [done|]. split; [done|].
  split; [apply upsert_others|].
  split; [apply upsert_keys|].
  split.
  { intros Hnd. rewrite upsert_keys. fold key.
    destruct (decide (key ∈ keys catalog)); [done|].
    apply NoDup_app. split; [done|]. split; [|apply NoDup_singleton].
    by intros k Hk ->%list_elem_of_singleton. }
  assert (s' = (save_exercise name muscle_group username now s).2) as ->
    by (by rewrite Hrun).
  unfold save_exercise, bind. rewrite Hload.
  apply write_exercises_same_but.
Qed.

Lemma save_exercise_keeps_others_witness :
  let s0 := (save_user "alice" "4711" "2024-05-01T10:00:00" fresh).2 in
  let s := (save_exercise "Squat" "Legs" "alice" "2024-05-01T10:05:00" s0).2 in
  ∃ s' catalog',
    save_exercise "Bench  Press" "Chest" "alice" "2024-05-01T10:06:00" s
    = (Ok tt, s')
    ∧ load_exercises "alice" s' = (Ok catalog', s')
    ∧ keys catalog' = ["squat"; "bench press"].
Proof.
  intros s0 s.
  destruct (save_exercise_keeps_others s "Bench  Press" "Chest" "alice"
              "2024-05-01T10:06:00" [Exercise "squat" "Legs" "2024-05-01T10:05:00"])
    as (s' & catalog' & Hrun & Hload & _ & Hkeys & _).
  - by vm_compute.
  - exists s', catalog'. split; [done|]. split; [done|].
    rewrite Hkeys. by vm_compute.
Defined.

Lemma delete_exercise_run name username s catalog :
  load_exercises username s = (Ok catalog, s) →
  ∃ s',
    delete_exercise name username s = (Ok tt, s')
    ∧ load_exercises username s'
      = (Ok (filter (λ ex, ex_name ex ≠ name) catalog), s').
Proof.
  intros Hload. unfold delete_exercise, bind. rewrite Hload.
  apply load_exercises_ok, lookup_path_Some in Hload as (d & Hd & Hf).
  erewrite (write_json_over_file (username, "exercises.json")); [|done..].
  eexists; split; [done|].
  apply load_exercises_ok, lookup_path_written.
Qed.

(** X13. [delete_exercise] compares names exactly, while [save_exercise]
    stores the normalized name.  After saving under [name] and deleting
    under [name'], no entry named [name'] is left and every entry with
    another name is kept; so the just-saved entry is removed when
    [name'] is the normalized name, and is still in the catalog when
    [name'] is anything else, in particular the name as typed when that
    is not in normal form. *)
Theorem delete_exercise_exact_name (s : fs)
    (name name' muscle_group username now : string) (catalog : list exercise) :
  let key := normalize_exercise_name name in
  load_exercises username s = (Ok catalog, s) →
  ∃ s1 s2 catalog2 created,
    save_exercise name muscle_group username now s = (Ok tt, s1)
    ∧ delete_exercise name' username s1 = (Ok tt, s2)
    ∧ load_exercises username s2 = (Ok catalog2, s2)
    ∧ (∀ ex, ex ∈ catalog2 → ex_name ex ≠ name')
    ∧ (∀ ex, ex ∈ catalog → ¬ has_key key ex → ex_name ex ≠ name' →
             ex ∈ catalog2)
    ∧ (name' = key → Exercise key muscle_group created ∉ catalog2)
    ∧ (name' ≠ key → Exercise key muscle_group created ∈ catalog2).
Proof.
  intros key Hload.
  destruct (save_exercise_run name muscle_group username now s catalog Hload)
    as (s1 & Hsave & Hload1).
  destruct (delete_exercise_run name' username s1 _ Hload1)
    as (s2 & Hdel & Hload2).
  destruct (upsert_has_saved name muscle_group now catalog) as (created & Hin).
  subst key.
  exists s1, s2,
    (filter (λ ex, ex_name ex ≠ name') (upsert name muscle_group now catalog)),
    created.
  split; [done|]. split; [done|]. split; [done|].
  split; [by intros ex [? _]%list_elem_of_filter|].
  split.
  { intros ex Hex Hk Hn. apply list_elem_of_filter. split; [done|].
    assert (ex ∈ filter (λ ex, ¬ has_key (normalize_exercise_name name) ex)
                   (upsert name muscle_group now catalog)) as Hf.
    { rewrite upsert_others. by apply list_elem_of_filter. }
    by apply list_elem_of_filter in Hf as [_ ?]. }
  split.
  - intros -> [Hn _]%list_elem_of_filter. by apply Hn.
  - intros Hne. apply list_elem_of_filter. split; [|done]. simpl. congruence.
Qed.

Lemma delete_exercise_exact_name_witness :
  let s := (save_user "alice" "4711" "2024-05-01T10:00:00" fresh).2 in
  ∃ s1 s2 catalog2 created,
    save_exercise "Bench Press" "Chest" "alice" "2024-05-01T10:05:00" s
    = (Ok tt, s1)
    ∧ delete_exercise "Bench Press" "alice" s1 = (Ok tt, s2)
    ∧ load_exercises "alice" s2 = (Ok catalog2, s2)
    ∧ Exercise "bench press" "Chest" created ∈ catalog2.
Proof.
  intros s.
  destruct (delete_exercise_exact_name s "Bench Press" "Bench Press" "Chest"
              "alice" "2024-05-01T10:05:00" [])
    as (s1 & s2 & catalog2 & created & H1 & H2 & H3 & _ & _ & _ & H4).
  - by vm_compute.
  - exists s1, s2, catalog2, created. repeat (split; [done|]).
    apply H4. by vm_compute.
Defined.

(** ** The CSV imports *)

Lemma lstrip_fixed s :
  from_option PyStr.isspace false (PyStr.first_char s) = false →
  PyStr.lstrip s = s.
Proof. destruct s as [|c s]; simpl; [done|]. by intros ->. Qed.

Lemma rev_app_rev_app s1 s2 s3 :
  String.rev_app (String.rev_app s1 s2) s3 = String.rev_app s2 (s1 +:+ s3).
Proof.
  revert s2. induction s1 as [|c s1 IH]; intros s2; [done|].
  change (String.rev_app (String.rev_app s1 (String c s2)) s3
          = String.rev_app s2 (String c (s1 +:+ s3))).
  by rewrite IH.
Qed.

Lemma rev_involutive s : String.rev (String.rev s) = s.
Proof.
  unfold String.rev. rewrite rev_app_rev_app. simpl.
  apply PyStrFacts.app_empty_r.
Qed.

Lemma first_char_rev_app s1 s2 :
  PyStr.first_char (String.rev_app s1 s2)
  = match PyStr.last_char s1 with
    | Some c => Some c
    | None => PyStr.first_char s2
    end.
Proof.
  revert s2. induction s1 as [|c s1 IH]; intros s2; [done|].
  change (String.rev_app (String c s1) s2) with (String.rev_app s1 (String c s2)).
  rewrite IH. destruct s1 as [|c' s1]; [done|].
  change (PyStr.last_char (String c (String c' s1)))
    with (PyStr.last_char (String c' s1)).
  destruct (PyStr.last_char (String c' s1)) eqn:Hl; [done|].
  exfalso. clear -Hl. revert c' Hl.
  induction s1 as [|c'' s1 IH]; intros c' Hl; [done|]. by apply (IH c'').
Qed.

Lemma strip_fixed s :
  from_option PyStr.isspace false (PyStr.first_char s) = false →
  from_option PyStr.isspace false (PyStr.last_char s) = false →
  PyStr.strip s = s.
Proof.
  intros Hfirst Hlast. unfold PyStr.strip. rewrite (lstrip_fixed s) by done.
  rewrite lstrip_fixed; [apply rev_involutive|].
  unfold String.rev. rewrite first_char_rev_app.
  by destruct (PyStr.last_char s).
Qed.

Lemma strip_normalize s :
  PyStr.strip (normalize_exercise_name s) = normalize_exercise_name s.
Proof.
  apply strip_fixed.
  - apply SplitJoin.join_first_not_space, SplitJoin.split_words.
  - apply SplitJoin.join_last_not_space, SplitJoin.split_words.
Qed.

Lemma elem_of_unique_from seen l x :
  x ∈ unique_from seen l ↔ x ∈ l ∧ x ∉ seen.
Proof.
  revert seen. induction l as [|y l IH]; intros seen; simpl.
  - split; [by intros ?%elem_of_nil|by intros [?%elem_of_nil _]].
  - case_bool_decide as Hy.
    + rewrite IH. split.
      * intros [? ?]. split; [by right|done].
      * intros [[->|?]%elem_of_cons ?]; [done|by split].
    + rewrite elem_of_cons, IH. split.
      * intros [->|[? Hn]]; [split; [left|done]|].
        split; [by right|]. intros ?. apply Hn. by right.
      * intros [[->|?]%elem_of_cons Hn]; [by left|].
        destruct (decide (x = y)) as [->|Hne]; [by left|]. right.
        split; [done|]. by intros [?|?]%elem_of_cons.
Qed.

Lemma NoDup_unique_from seen l : NoDup (unique_from seen l).
Proof.
  revert seen. induction l as [|y l IH]; intros seen; simpl; [constructor|].
  case_bool_decide; [apply IH|].
  apply NoDup_cons. split; [|apply IH].
  intros [_ Hn]%elem_of_unique_from. apply Hn. left.
Qed.

Lemma elem_of_unique l x : x ∈ unique l ↔ x ∈ l.
Proof.
  unfold unique. rewrite elem_of_unique_from. split; [by intros [? _]|].
  intros ?. split; [done|apply not_elem_of_nil].
Qed.

Lemma fmap_fixed {A} (f : A → A) (l : list A) :
  (∀ x, x ∈ l → f x = x) → f <$> l = l.
Proof.
  induction l as [|x l IH]; intros Hf; [done|].
  rewrite fmap_cons, Hf by left. f_equal. apply IH.
  intros y Hy. apply Hf. by right.
Qed.

Lemma names_of_new (now : nat → string) l :
  ex_name <$> imap (λ i exercise_name, Exercise exercise_name "Other" (now i)) l
  = l.
Proof.
  revert now. induction l as [|x l IH]; intros now; [done|].
  rewrite imap_cons, fmap_cons. simpl. f_equal. apply (IH (now ∘ S)).
Qed.

Lemma groups_of_new (now : nat → string) l :
  Forall (λ ex, ex_muscle_group ex = "Other")
    (imap (λ i exercise_name, Exercise exercise_name "Other" (now i)) l).
Proof.
  apply Forall_forall. intros ex (i & y & -> & _)%elem_of_lookup_imap. done.
Qed.

Lemma keys_app l1 l2 : keys (l1 ++ l2) = keys l1 ++ keys l2.
Proof. unfold keys. apply fmap_app. Qed.

Lemma write_json_file p c s old :
  lookup_path p s = Some (File old) →
  ∃ s',
    write_json p c s = (Ok tt, s')
    ∧ lookup_path p s' = Some (File c)
    ∧ (∀ q, q ≠ p → lookup_path q s' = lookup_path q s)
    ∧ users_file s' = users_file s ∧ archive s' = archive s
    ∧ backups s' = backups s.
Proof.
  intros (d & Hd & Hf)%lookup_path_Some.
  eexists. split; [by apply (write_json_over_file p c s d old)|].
  split; [apply lookup_path_written|].
  split; [|done].
  intros q Hq. pose proof (write_json_frame p c s q Hq) as Hfr.
  by rewrite (write_json_over_file p c s d old) in Hfr.
Qed.

Section CsvImportSuccess.
Variable to_date : cell → option string.
Variable str_to_float : string → option pyfloat.
Variable str_to_int : string → option Z.

Lemma coerce_workout_Ok (workout_ : record * string) w :
  coerce_workout to_date str_to_float str_to_int workout_ = Ok w →
  w_exercise w = workout_.2
  ∧ to_date (r_date workout_.1) = Some (w_date w)
  ∧ py_float str_to_float (r_weight workout_.1) = Ok (w_weight w)
  ∧ py_int str_to_int (r_reps workout_.1) = Ok (w_reps w).
Proof.
  unfold coerce_workout.
  destruct (to_date _) as [date|]; [|done].
  destruct (py_float _ _) as [weight|]; [|done].
  destruct (py_int _ _) as [reps|]; [|done].
  by intros [= <-].
Qed.

Lemma coerce_workout_coercible (workout_ : record * string) :
  coercible to_date str_to_float str_to_int workout_.1 →
  ∃ w, coerce_workout to_date str_to_float str_to_int workout_ = Ok w.
Proof.
  intros ([date Hd] & [f Hf] & [z Hz]). unfold coerce_workout.
  rewrite Hd, Hf, Hz. by eexists.
Qed.

Lemma apply_normalize_Ok r p :
  apply_normalize r = Ok p →
  p.1 = r ∧ ∃ x, r_exercise r = CStr x ∧ p.2 = normalize_exercise_name x.
Proof.
  unfold apply_normalize. destruct (r_exercise r) as [x| |]; [|done..].
  intros [= <-]. split; [done|]. by exists x.
Qed.

(** X14. A CSV import whose frame has the four columns, text in every
    exercise cell and coercible date, weight and reps in every row
    succeeds: the log grows at its end by one workout per row, in row
    order, each under the normalized exercise name; the catalog keeps
    its entries and grows at its end by one entry of group [Other] for
    every normalized name of the file that was not among its keys, each
    once.  So every imported workout names an exercise of the catalog,
    and pairwise distinct keys stay pairwise distinct.  No file besides
    the two of that user is changed. *)
Theorem import_from_csv_appends (df : dataframe) (username : string)
    (now : nat → string) (s : fs) (catalog : list exercise) (log : list workout) :
  Forall (λ col, col ∈ df_columns df) ["date"; "exercise"; "weight"; "reps"] →
  Forall (λ r, ∃ x, r_exercise r = CStr x) (df_records df) →
  Forall (coercible to_date str_to_float str_to_int) (df_records df) →
  load_exercises username s = (Ok catalog, s) →
  load_workouts username s = (Ok log, s) →
  ∃ msg s' new appended,
    import_from_csv to_date str_to_float str_to_int (Ok df) username now s
    = (Ok (true, Text msg), s')
    ∧ load_exercises username s' = (Ok (catalog ++ new), s')
    ∧ load_workouts username s' = (Ok (log ++ appended), s')
    ∧ Forall2 (reads_as to_date str_to_float str_to_int) (df_records df) appended
    ∧ Forall (λ ex, ex_muscle_group ex = "Other") new
    ∧ (ex_name <$> new) = keys new
    ∧ NoDup (keys new)
    ∧ (∀ k, k ∈ keys new ↔ (k ∉ keys catalog) ∧ k ∈ (w_exercise <$> appended))
    ∧ (∀ w, w ∈ appended → w_exercise w ∈ keys (catalog ++ new))
    ∧ (NoDup (keys catalog) → NoDup (keys (catalog ++ new)))
    ∧ (∀ q, q ≠ exercises (get_user_files username) →
            q ≠ workouts (get_user_files username) →
            lookup_path q s' = lookup_path q s)
    ∧ users_file s' = users_file s ∧ archive s' = archive s
    ∧ backups s' = backups s.
Proof.
  intros Hcols Htext Hcoerc Hloade Hloadw.
  (* the two passes over the rows *)
  destruct (map_res_Forall2 apply_normalize (df_records df))
    as (df_ & Hnorm & Hnorm2).
  { eapply Forall_impl; [exact Htext|]. intros r [x Hx].
    unfold apply_normalize. rewrite Hx. by eexists. }
  destruct (map_res_Forall2 (coerce_workout to_date str_to_float str_to_int) df_)
    as (appended & Happ & Happ2).
  { apply Forall_forall. intros p Hp.
    destruct (map_res_Ok_elem _ _ _ _ Hnorm Hp) as (r & Hr & Hrp).
    apply apply_normalize_Ok in Hrp as [Hp1 _].
    apply coerce_workout_coercible. rewrite Hp1.
    rewrite Forall_forall in Hcoerc. by apply Hcoerc. }
  assert (Forall2 (reads_as to_date str_to_float str_to_int)
            (df_records df) appended) as Hreads.
  { eapply Forall2_trans; [|exact Hnorm2|exact Happ2].
    intros r p w Hrp Hpw. simpl in *.
    apply apply_normalize_Ok in Hrp as [Hp1 (x & Hx & Hp2)].
    apply coerce_workout_Ok in Hpw as (He & Hd & Hf & Hz).
    rewrite Hp1 in Hd, Hf, Hz. rewrite Hp2 in He.
    exists x. repeat split; assumption. }
  assert (w_exercise <$> appended = df_.*2) as Hnames.
  { clear -Happ2. induction Happ2 as [|p w df_ appended Hpw _ IH]; [done|].
    rewrite !fmap_cons, IH. f_equal.
    by apply coerce_workout_Ok in Hpw as [-> _]. }
  assert (∀ n, n ∈ df_.*2 → normalize_exercise_name n = n
                            ∧ PyStr.strip n = n) as Hnormal.
  { intros n (p & -> & Hp)%list_elem_of_fmap.
    destruct (map_res_Ok_elem _ _ _ _ Hnorm Hp) as (r & Hr & Hrp).
    apply apply_normalize_Ok in Hrp as [_ (x & _ & ->)].
    split; [apply normalize_idempotent|apply strip_normalize]. }
  (* the new exercises *)
  set (N := filter (λ exercise_name, exercise_name ∉ keys catalog) (unique df_.*2)).
  set (new := imap (λ i exercise_name, Exercise exercise_name "Other" (now i)) N).
  assert (ex_name <$> new = N) as Hnew_names by apply names_of_new.
  assert (∀ k, k ∈ N ↔ (k ∉ keys catalog) ∧ k ∈ df_.*2) as HN.
  { intros k. unfold N. rewrite list_elem_of_filter, elem_of_unique. done. }
  assert (keys new = N) as Hnew_keys.
  { change (keys new) with ((normalize_exercise_name ∘ ex_name) <$> new).
    rewrite list_fmap_compose, Hnew_names. apply fmap_fixed.
    intros n [_ Hn]%HN. by apply Hnormal in Hn as [? _]. }
  assert (NoDup N) as HndN by apply NoDup_filter, NoDup_unique_from.
  (* the run *)
  unfold import_from_csv, try_except.
  erewrite bind_ok; [|reflexivity].
  assert (forallb (λ col, bool_decide (col ∈ df_columns df))
            ["date"; "exercise"; "weight"; "reps"] = true) as ->.
  { apply forallb_forall. intros col Hcol. apply bool_decide_eq_true.
    rewrite Forall_forall in Hcols. by apply Hcols, list_elem_of_In. }
  change (negb true) with false. cbv iota.
  erewrite bind_ok; [|unfold lift; by rewrite Hnorm].
  erewrite bind_ok; [|exact Hloade].
  fold (keys catalog).
  rewrite (fmap_fixed PyStr.strip (unique df_.*2)); cycle 1.
  { intros n Hn. rewrite elem_of_unique in Hn. by apply Hnormal in Hn as [_ ?]. }
  fold N. fold new.
  assert (∃ s1,
            (if bool_decide (new = []) then ret tt
             else write_json (exercises (get_user_files username))
                    (Exercises (catalog ++ new))) s = (Ok tt, s1)
            ∧ load_exercises username s1 = (Ok (catalog ++ new), s1)
            ∧ (∀ q, q ≠ exercises (get_user_files username) →
                    lookup_path q s1 = lookup_path q s)
            ∧ users_file s1 = users_file s ∧ archive s1 = archive s
            ∧ backups s1 = backups s) as (s1 & Hw1 & Hl1 & Hfr1 & Hu1 & Ha1 & Hb1).
  { case_bool_decide as Hempty.
    - exists s. rewrite Hempty, app_nil_r. done.
    - apply load_exercises_ok in Hloade as Hpath.
      destruct (write_json_file (exercises (get_user_files username))
                  (Exercises (catalog ++ new)) s _ Hpath)
        as (s1 & Hw & Hp & Hfr & Hrest).
      exists s1. split; [done|]. split; [by apply load_exercises_ok|done]. }
  erewrite bind_ok; [|exact Hw1].
  assert (load_workouts username s1 = (Ok log, s1)) as Hloadw1.
  { apply load_workouts_ok. rewrite (Hfr1 (username, "workouts.json")) by done.
    by apply load_workouts_ok. }
  erewrite bind_ok; [|exact Hloadw1].
  erewrite bind_ok; [|unfold lift; by rewrite Happ].
  apply load_workouts_ok in Hloadw1 as Hpathw.
  destruct (write_json_file (workouts (get_user_files username))
              (Workouts (log ++ appended)) s1 _ Hpathw)
    as (s2 & Hw2 & Hp2 & Hfr2 & Hu2 & Ha2 & Hb2).
  erewrite bind_ok; [|exact Hw2].
  eexists _, s2, new, appended. split; [reflexivity|].
  split.
  { apply load_exercises_ok. rewrite (Hfr2 (username, "exercises.json")) by done.
    by apply load_exercises_ok. }
  split; [by apply load_workouts_ok|].
  split; [done|]. split; [apply groups_of_new|].
  split; [by rewrite Hnew_names, Hnew_keys|].
  split; [by rewrite Hnew_keys|].
  split; [by intros k; rewrite Hnew_keys, Hnames|].
  split.
  { intros w Hw. rewrite keys_app, Hnew_keys, elem_of_app.
    destruct (decide (w_exercise w ∈ keys catalog)); [by left|right].
    apply HN. split; [done|]. rewrite <- Hnames.
    apply list_elem_of_fmap. by exists w. }
  split.
  { intros Hnd. rewrite keys_app, Hnew_keys. apply NoDup_app.
    split; [done|]. split; [|done]. intros k Hk [Hn _]%HN. done. }
  split.
  { intros q Hq1 Hq2. rewrite Hfr2 by done. by apply Hfr1. }
  by rewrite Hu2, Ha2, Hb2.
Qed.
End CsvImportSuccess.

Lemma import_from_csv_appends_witness :
  let s := (save_user "alice" "4711" "2024-05-01T10:00:00" fresh).2 in
  let df := DataFrame ["date"; "exercise"; "weight"; "reps"]
              [Record_ (CStr "2024-05-01") (CStr " Dead  Lift") (CInt 100) (CInt 5)] in
  ∃ msg s' new appended,
    import_from_csv iso_to_date decimal_float decimal_int (Ok df) "alice"
      (λ _, "2024-05-03T18:00:00") s
    = (Ok (true, Text msg), s')
    ∧ load_exercises "alice" s' = (Ok ([] ++ new), s')
    ∧ load_workouts "alice" s' = (Ok ([] ++ appended), s')
    ∧ Forall2 (reads_as iso_to_date decimal_float decimal_int)
        (df_records df) appended.
Proof.
  intros s df.
  destruct (import_from_csv_appends iso_to_date decimal_float decimal_int df
              "alice" (λ _, "2024-05-03T18:00:00") s [] [])
    as (msg & s' & new & appended & H1 & H2 & H3 & H4 & _).
  - by repeat (apply Forall_cons; split; [by vm_compute; left + (right; left)
                 + (right; right; left) + (right; right; right; left)|]).
  - apply Forall_singleton. by eexists.
  - apply Forall_singleton. split; [by eexists|]. split; by eexists.
  - by vm_compute.
  - by vm_compute.
  - by exists msg, s', new, appended.
Defined.

Lemma filter_none {A} (P : A → Prop) `{!∀ x, Decision (P x)} (l : list A) :
  (∀ x, x ∈ l → ¬ P x) → filter P l = [].
Proof.
  induction l as [|x l IH]; intros Hl; [done|].
  rewrite filter_cons, decide_False by (apply Hl; left).
  apply IH. intros y Hy. apply Hl. by right.
Qed.

(** X15. The refusals of [import_from_csv] that leave everything as it
    was: a file that [pd.read_csv] rejects, a frame that lacks one of
    the four columns, and a user whose exercises file cannot be loaded.
    Each is reported as [(False, message)] and the data directory is
    unchanged. *)
Theorem import_from_csv_refusals (to_date : cell → option string)
    (str_to_float : string → option pyfloat) (str_to_int : string → option Z)
    (username : string) (now : nat → string) (s : fs) :
  (∀ e, import_from_csv to_date str_to_float str_to_int (Raise e) username now s
        = (Ok (false, ErrorText "Error importing data: " e), s))
  ∧ (∀ df col, col ∈ ["date"; "exercise"; "weight"; "reps"] →
               col ∉ df_columns df →
       import_from_csv to_date str_to_float str_to_int (Ok df) username now s
       = (Ok (false, Text "CSV must contain columns: date, exercise, weight, reps"),
          s))
  ∧ (∀ df e,
       Forall (λ col, col ∈ df_columns df) ["date"; "exercise"; "weight"; "reps"] →
       Forall (λ r, ∃ x, r_exercise r = CStr x) (df_records df) →
       (load_exercises username s).1 = Raise e →
       import_from_csv to_date str_to_float str_to_int (Ok df) username now s
       = (Ok (false, ErrorText "Error importing data: " e), s)).
Proof.
  split; [done|]. split.
  - intros df col Hcol Hmiss. unfold import_from_csv, try_except.
    erewrite bind_ok; [|reflexivity].
    assert (forallb (λ col, bool_decide (col ∈ df_columns df))
              ["date"; "exercise"; "weight"; "reps"] = false) as ->; [|done].
    apply not_true_is_false. intros Hall.
    rewrite forallb_forall in Hall.
    apply list_elem_of_In, Hall, bool_decide_eq_true in Hcol. done.
  - intros df e Hcols Htext Hload. unfold import_from_csv, try_except.
    erewrite bind_ok; [|reflexivity].
    assert (forallb (λ col, bool_decide (col ∈ df_columns df))
              ["date"; "exercise"; "weight"; "reps"] = true) as ->.
    { apply forallb_forall. intros col Hcol. apply bool_decide_eq_true.
      rewrite Forall_forall in Hcols. by apply Hcols, list_elem_of_In. }
    change (negb true) with false. cbv iota.
    destruct (map_res_Forall2 apply_normalize (df_records df))
      as (df_ & Hnorm & _).
    { eapply Forall_impl; [exact Htext|]. intros r [x Hx].
      unfold apply_normalize. rewrite Hx. by eexists. }
    erewrite bind_ok; [|unfold lift; by rewrite Hnorm].
    pose proof (load_exercises_state username s) as Hst.
    destruct (load_exercises username s) as [[existing|e'] s0] eqn:Hl;
      simpl in Hst, Hload; subst s0; [done|]. injection Hload as ->.
    by erewrite bind_raise.
Qed.

(** ** The exercise import *)

Lemma row_exercise_strip_Ok df r n :
  row_exercise_strip df r = Ok n →
  ∃ x, r_exercise r = CStr x ∧ n = PyStr.strip x.
Proof.
  unfold row_exercise_strip. case_bool_decide; [|done].
  destruct (r_exercise r) as [x| |]; [|done..]. intros [= <-]. by exists x.
Qed.

(** X16. [import_exercises_from_csv] on a frame with an [exercise]
    column of text cells succeeds.  The catalog keeps its entries and
    grows at its end by entries of group [Other]; each is the stripped
    text of a row whose lower-cased form was not the lower-cased name of
    an entry (names are kept as written, not normalized, and a name
    listed twice in the file is added twice).  Importing the same file
    again adds nothing and leaves the data directory unchanged. *)
Theorem import_exercises_from_csv_adds (df : dataframe) (username : string)
    (now now' : nat → string) (s : fs) (catalog : list exercise) :
  "exercise" ∈ df_columns df →
  Forall (λ r, ∃ x, r_exercise r = CStr x) (df_records df) →
  load_exercises username s = (Ok catalog, s) →
  ∃ msg s' new,
    import_exercises_from_csv (Ok df) username now s = (Ok (true, Text msg), s')
    ∧ load_exercises username s' = (Ok (catalog ++ new), s')
    ∧ Forall (λ ex, ex_muscle_group ex = "Other") new
    ∧ (ex_name <$> new)
      = filter (λ n, PyStr.lower n ∉ (PyStr.lower ∘ ex_name <$> catalog))
          (omap (λ r, match r_exercise r with
                      | CStr x => Some (PyStr.strip x)
                      | _ => None
                      end) (df_records df))
    ∧ import_exercises_from_csv (Ok df) username now' s'
      = (Ok (true, Text "No new exercises to add"), s')
    ∧ same_but_exercises username s s'.
Proof.
  intros Hcol Htext Hload.
  destruct (map_res_Forall2 (row_exercise_strip df) (df_records df))
    as (stripped & Hstrip & Hstrip2).
  { eapply Forall_impl; [exact Htext|]. intros r [x Hx].
    unfold row_exercise_strip. rewrite bool_decide_eq_true_2, Hx by done.
    by eexists. }
  assert (stripped
          = omap (λ r, match r_exercise r with
                       | CStr x => Some (PyStr.strip x)
                       | _ => None
                       end) (df_records df)) as Hstripped.
  { clear -Hstrip2. induction Hstrip2 as [|r n records stripped Hr _ IH]; [done|].
    apply row_exercise_strip_Ok in Hr as (x & Hx & ->).
    simpl. rewrite Hx. simpl. by f_equal. }
  set (existing_names := (λ ex, PyStr.lower (ex_name ex)) <$> catalog).
  set (N := filter (λ exercise_name, PyStr.lower exercise_name ∉ existing_names)
              stripped).
  set (new := imap (λ i exercise_name, Exercise exercise_name "Other" (now i)) N).
  assert (ex_name <$> new = N) as Hnew_names by apply names_of_new.
  assert (∃ msg s',
            import_exercises_from_csv (Ok df) username now s
            = (Ok (true, Text msg), s')
            ∧ load_exercises username s' = (Ok (catalog ++ new), s')
            ∧ same_but_exercises username s s') as (msg & s' & Hrun & Hload' & Hsame).
  { unfold import_exercises_from_csv, try_except.
    erewrite bind_ok; [|reflexivity].
    erewrite bind_ok; [|exact Hload].
    erewrite bind_ok; [|unfold lift; by rewrite Hstrip].
    fold existing_names. fold N. fold new.
    case_bool_decide as Hempty.
    - eexists _, s. split; [reflexivity|].
      rewrite Hempty, app_nil_r. split; [done|apply same_but_exercises_refl].
    - apply load_exercises_ok in Hload as Hpath.
      destruct (write_json_file (exercises (get_user_files username))
                  (Exercises (catalog ++ new)) s _ Hpath)
        as (s1 & Hw & Hp & Hfr & Hu & Ha & Hb).
      erewrite bind_ok; [|exact Hw].
      eexists _, s1. split; [reflexivity|].
      split; [by apply load_exercises_ok|]. by repeat split. }
  exists msg, s', new. split; [done|]. split; [done|].
  split; [apply groups_of_new|].
  split; [by rewrite Hnew_names, <- Hstripped|].
  split; [|done].
  (* the second import *)
  unfold import_exercises_from_csv, try_except.
  erewrite bind_ok; [|reflexivity].
  erewrite bind_ok; [|exact Hload'].
  erewrite bind_ok; [|unfold lift; by rewrite Hstrip].
  rewrite filter_none; [done|].
  intros n Hn Hnot. apply Hnot.
  rewrite fmap_app, elem_of_app.
  destruct (decide (PyStr.lower n ∈ existing_names)) as [Hin|Hout]; [by left|].
  right. apply list_elem_of_fmap.
  assert (n ∈ ex_name <$> new) as (ex & -> & Hex)%list_elem_of_fmap.
  { rewrite Hnew_names. by apply list_elem_of_filter. }
  by exists ex.
Qed.

Lemma import_exercises_from_csv_adds_witness :
  let s := (save_user "alice" "4711" "2024-05-01T10:00:00" fresh).2 in
  let df := DataFrame ["exercise"]
              [Record_ (CInt 0) (CStr " Dead Lift ") (CInt 0) (CInt 0)] in
  ∃ msg s' new,
    import_exercises_from_csv (Ok df) "alice" (λ _, "2024-05-03T18:00:00") s
    = (Ok (true, Text msg), s')
    ∧ load_exercises "alice" s' = (Ok ([] ++ new), s')
    ∧ import_exercises_from_csv (Ok df) "alice" (λ _, "2024-05-04T18:00:00") s'
      = (Ok (true, Text "No new exercises to add"), s').
Proof.
  intros s df.
  destruct (import_exercises_from_csv_adds df "alice"
              (λ _, "2024-05-03T18:00:00") (λ _, "2024-05-04T18:00:00") s [])
    as (msg & s' & new & H1 & H2 & _ & _ & H3 & _).
  - left.
  - apply Forall_singleton. by eexists.
  - by vm_compute.
  - by exists msg, s', new.
Defined.

(** ** Snapshots *)

(** X17. [create_backup_file] on a readable registry returns without
    changing anything.  The snapshot carries the registry as it is, and
    its per-user data has one entry for exactly those registered users
    whose two files can both be read, holding what those files hold;
    users whose files cannot be read are left out without notice. *)
Theorem create_backup_file_contents (now : string) (s : fs) (users : list user) :
  users_file s = Some (Users users) →
  ∃ backup,
    create_backup_file now s = (Ok backup, s)
    ∧ snap_timestamp backup = now
    ∧ snap_users backup = users
    ∧ NoDup (snap_user_data backup).*1
    ∧ (∀ k v, (k, v) ∈ snap_user_data backup
              ↔ k ∈ names users ∧ read_user_snapshot k s = Ok v)
    ∧ (∀ k, k ∈ names users → ¬ readable k s →
            k ∉ (snap_user_data backup).*1).
Proof.
  intros Hreg.
  destruct (collect_user_data_spec users s []) as (Hnd & Hsound & _ & Hcomplete).
  { apply NoDup_nil_2. }
  { intros k v Hin. by apply elem_of_nil in Hin. }
  exists (Snapshot now users (collect_user_data users s [])).
  split.
  { unfold create_backup_file. erewrite bind_ok; [|by apply load_users_ok].
    reflexivity. }
  split; [done|]. split; [done|]. split; [done|]. simpl.
  split.
  - intros k v. split.
    + intros Hin. split; [|by apply Hsound].
      destruct (collect_user_data_keys users s [] k v Hin) as [?|Hnil]; [done|].
      by apply elem_of_nil in Hnil.
    + intros [Hk Hread]. by apply Hcomplete.
  - intros k Hk Hnot ([k' v] & -> & Hin)%list_elem_of_fmap. simpl in *.
    apply Hnot. exists v. by apply Hsound.
Qed.

Lemma create_backup_file_contents_witness :
  let s := (save_user "alice" "4711" "2024-05-01T10:00:00" fresh).2 in
  ∃ backup,
    create_backup_file "2024-05-02T09:00:00" s = (Ok backup, s)
    ∧ snap_timestamp backup = "2024-05-02T09:00:00"
    ∧ snap_users backup = [User 1 "alice" "2024-05-01T10:00:00" (Some "4711")].
Proof.
  intros s.
  destruct (create_backup_file_contents "2024-05-02T09:00:00" s
              [User 1 "alice" "2024-05-01T10:00:00" (Some "4711")])
    as (backup & H1 & H2 & H3 & _).
  - by vm_compute.
  - by exists backup.
Defined.

#[local] Instance same_but_user_dirs_refl : Reflexive same_but_user_dirs.
Proof. by intros s. Qed.

#[local] Instance same_but_user_dirs_trans : Transitive same_but_user_dirs.
Proof.
  intros s1 s2 s3 (H1 & H2 & H3) (H4 & H5 & H6).
  split; [by rewrite H4|]. split; [by rewrite H5|by rewrite H6].
Qed.





(** ** The registry over a sequence of operations *)

Lemma step_registry (o : op) (s : fs) :
  is_import o = false →
  users_file (step o s) = users_file s
  ∨ ∃ users,
      users_file s = Some (Users users)
      ∧ ((∃ u, (u_name u ∉ names users)
               ∧ users_file (step o s) = Some (Users (users ++ [u])))
         ∨ (∃ name, users_file (step o s)
                    = Some (Users (filter (λ u, u_name u ≠ name) users)))).
Proof.
  intros Hop.
  destruct o as [name code now|name code bs ars|name now|b]; simpl in *;
    [| | |done].
  - (* save_user *)
    destruct (load_users s) as [[users|e] s0] eqn:Hload.
    2:{ left. unfold save_user. erewrite bind_raise by exact Hload.
        simpl. by rewrite <- (load_users_state s), Hload. }
    apply load_users_Ok_inv in Hload as [-> Hreg].
    destruct (decide (name ∈ names users)) as [Hin|Hnot].
    + left. by rewrite (save_user_refuses s users).
    + right. exists users. split; [done|]. left.
      destruct (save_user_run s users name code now Hreg Hnot) as (msg & ->).
      by eexists (User _ name now (Some code)).
  - (* delete_user *)
    unfold delete_user.
    destruct (load_users s) as [[users|e] s0] eqn:Hload.
    2:{ left. erewrite bind_raise by exact Hload.
        simpl. by rewrite <- (load_users_state s), Hload. }
    apply load_users_Ok_inv in Hload as Hinv. destruct Hinv as [-> Hreg].
    erewrite bind_ok by exact Hload.
    destruct (find (has_name name) users) as [user|]; [|by left].
    destruct (bool_decide (code = "")); [by left|].
    destruct (bool_decide (Some code ≠ u_protection_code user)); [by left|].
    destruct (create_backup_keeps bs s) as (Hu & _ & _).
    destruct (create_backup bs s) as [[[]|e] s1] eqn:Hb; simpl in Hu.
    2:{ left. erewrite bind_raise by exact Hb. done. }
    right. exists users. split; [done|]. right. exists name.
    erewrite bind_ok by exact Hb.
    erewrite bind_ok; [|reflexivity].
    set (s2 := set_users_file _ s1).
    assert (∀ m : M unit, (∀ s0, users_file (m s0).2 = users_file s0) →
              users_file (bind m (λ _, ret (true, Text ("Deleted user: " +:+ name))) s2).2
              = users_file s2) as Hkeep.
    { intros m Hm. unfold bind. specialize (Hm s2).
      by destruct (m s2) as [[[]|e] s3]. }
    rewrite Hkeep; [done|].
    intros s0. unfold bind, get, exists_dir, move_to_archive. simpl.
    case_bool_decide; [|done]. unfold bind, get, raise, modify. simpl.
    destruct (user_dirs s0 !! _) as [d|]; [|done].
    destruct (archive s0 !! _) as [a|]; [|done].
    by destruct (a !! _).
  - (* restore_user *)
    destruct (decide (user_archives name s = [])) as [Hnone|Hsome].
    { left. by rewrite restore_user_no_archive. }
    destruct (load_users s) as [[users|e] s0] eqn:Hload.
    2:{ left. unfold restore_user, bind at 1, get.
        rewrite bool_decide_eq_false_2 by done.
        erewrite bind_raise by exact Hload.
        simpl. by rewrite <- (load_users_state s), Hload. }
    apply load_users_Ok_inv in Hload as [-> Hreg].
    destruct (decide (name ∈ names users)) as [Hin|Hnot].
    + left. by rewrite (restore_user_already_active s users).
    + right. exists users. split; [done|]. left.
      destruct (restore_user_run s users name now Hsome Hreg Hnot)
        as (a & _ & ->).
      by eexists (User _ name now None).
Qed.

(** X19. Usernames stay unique.  Over any sequence of registrations,
    deletions and restores, whatever each of them returns or raises, a
    registry whose names are pairwise distinct keeps pairwise distinct
    names; in particular every registry reached from a freshly
    initialized data directory has them. *)
Theorem registry_names_stay_distinct (ops : list op) (s : fs) :
  Forall (λ o, is_import o = false) ops →
  registry_names_distinct s →
  registry_names_distinct (run ops s).
Proof.
  revert s. induction ops as [|o ops IH]; intros s Hops Hs; [done|].
  apply Forall_cons in Hops as [Ho Hops].
  change (run (o :: ops) s) with (run ops (step o s)).
  apply IH; [done|]. intros users' Hreg'.
  destruct (step_registry o s Ho) as [Hsame|(users & Hreg & Hcase)].
  - apply Hs. by rewrite <- Hsame.
  - specialize (Hs users Hreg).
    destruct Hcase as [(u & Hu & Hnew)|(name & Hnew)];
      rewrite Hnew in Hreg'; injection Hreg' as <-.
    + rewrite names_snoc. apply NoDup_app. split; [done|].
      split; [|apply NoDup_singleton].
      by intros n Hn ->%list_elem_of_singleton.
    + unfold names in *. clear -Hs.
      induction users as [|u users IHu]; [done|].
      rewrite fmap_cons in Hs. apply NoDup_cons in Hs as [Hu Hs].
      rewrite filter_cons. case_decide.
      * rewrite fmap_cons. apply NoDup_cons. split; [|by apply IHu].
        intros (u' & Heq & [_ Hin]%list_elem_of_filter)%list_elem_of_fmap.
        apply Hu, list_elem_of_fmap. by exists u'.
      * by apply IHu.
Qed.

Lemma registry_names_stay_distinct_witness :
  registry_names_distinct
    (run [Register "alice" "4711" "2024-05-01T10:00:00";
          Delete "alice" "4711" "20240502_093000" "20240502_093001";
          Register "alice" "0815" "2024-05-02T10:00:00";
          Restore "alice" "2024-05-03T08:00:00"] fresh).
Proof.
  apply registry_names_stay_distinct.
  - by repeat constructor.
  - intros users [= <-]. apply NoDup_nil_2.
Defined.

(** ** Failures that are not caught *)


(** X21. A failing backup aborts the deletion.  When the registry can
    be read and [create_backup] raises, [delete_user] with the right
    code raises the same exception: the user stays registered, and the
    registry, every user directory and the archive are as before.  What
    the backup wrote before it failed stays in the backup root. *)
Theorem delete_user_backup_fails (s : fs) (users : list user) (u : user)
    (protection_code backup_stamp archive_stamp : string) (e : exn) :
  users_file s = Some (Users users) →
  NoDup (names users) →
  u ∈ users →
  protection_code ≠ "" →
  u_protection_code u = Some protection_code →
  (create_backup backup_stamp s).1 = Raise e →
  ∃ s',
    delete_user (u_name u) protection_code backup_stamp archive_stamp s
    = (Raise e, s')
    ∧ s' = (create_backup backup_stamp s).2
    ∧ users_file s' = users_file s ∧ user_dirs s' = user_dirs s
    ∧ archive s' = archive s
    ∧ active (u_name u) s'.
Proof.
  intros Hreg Hnd Hu Hcode Hmatch Hfail.
  destruct (create_backup_keeps backup_stamp s) as (Hk1 & Hk2 & Hk3).
  destruct (create_backup backup_stamp s) as [r s1] eqn:Hb.
  simpl in *. subst r.
  exists s1. split.
  - unfold delete_user. erewrite bind_ok; [|by apply load_users_ok].
    rewrite find_has_name_unique by done.
    rewrite bool_decide_eq_false_2 by done.
    rewrite bool_decide_eq_false_2 by (rewrite Hmatch; by intros []).
    by erewrite bind_raise.
  - split; [done|]. split; [done|]. split; [done|]. split; [done|].
    exists users. split; [by rewrite Hk1|].
    apply list_elem_of_fmap. by exists u.
Qed.

Lemma delete_user_backup_fails_witness :
  let alice := User 1 "alice" "2024-05-01T10:00:00" (Some "4711") in
  let s := Fs (Some (Users [alice])) {["alice" := two_files]} ∅
              {["backup_20240502_093000" := {["alice" := Dir two_files]}]} in
  ∃ s',
    delete_user "alice" "4711" "20240502_093000" "20240502_093000" s
    = (Raise FileExistsError, s')
    ∧ s' = (create_backup "20240502_093000" s).2
    ∧ users_file s' = users_file s ∧ user_dirs s' = user_dirs s
    ∧ archive s' = archive s
    ∧ active "alice" s'.
Proof.
  intros alice s.
  apply (delete_user_backup_fails s [alice] alice "4711"
           "20240502_093000" "20240502_093000" FileExistsError).
  - reflexivity.
  - apply NoDup_singleton.
  - left.
  - done.
  - reflexivity.
  - by vm_compute.
Defined.

(** ** Blank exercise names *)

Lemma isspace_lower_char c :
  PyStr.isspace (PyStr.lower_char c) = PyStr.isspace c.
Proof. by destruct c as [[] [] [] [] [] [] [] []]. Qed.

Lemma all_isspace_lower s :
  PyStr.all_chars PyStr.isspace (PyStr.lower s)
  = PyStr.all_chars PyStr.isspace s.
Proof.
  induction s as [|c s IH]; [done|]. simpl.
  by rewrite isspace_lower_char, IH.
Qed.

Lemma split_nil s :
  PyStr.split s = [] ↔ PyStr.all_chars PyStr.isspace s = true.
Proof.
  induction s as [|c s IH]; [done|]. simpl.
  destruct (PyStr.isspace c); simpl; [done|].
  destruct (PyStr.at_break s); [done|].
  by destruct (PyStr.split s).
Qed.

(** X22. [normalize_exercise_name] returns the empty string exactly for
    the names made of whitespace only (the empty name among them); so an
    exercise saved under a blank name is stored with the empty name as
    its key. *)
Theorem normalize_exercise_name_blank (name : string) :
  normalize_exercise_name name = ""
  ↔ PyStr.all_chars PyStr.isspace name = true.
Proof.
  unfold normalize_exercise_name.
  rewrite <- all_isspace_lower, <- split_nil.
  pose proof (SplitJoin.split_words (PyStr.lower name)) as Hwords.
  destruct (PyStr.split (PyStr.lower name)) as [|w ws]; [done|].
  apply Forall_cons in Hwords as [Hw _].
  split; [|done]. intros Hj. by apply SplitJoin.join_nonempty in Hj.
Qed.
